(** * serendipity: package.json manager, dev-server start-up and command validation

    A shallow embedding of
      - packages/serendipity-public/src/utils/package-manager.ts (class PackageManager),
      - packages/serendipity-service-react/src/core/ReactService.ts (class ReactService),
      - the CoreManager.validateCreateCommand contract exercised by
        packages/serendipity/__tests__/cliManager.spec.ts,
    together with the properties the design document states about them. *)

From Stdlib Require Import List String Ascii Bool ZArith Lia DecimalString.
Import ListNotations.
Open Scope string_scope.

(** ** JavaScript values *)

Module JS.

#[local] Set Warnings "-register-all".

(** The values that travel through the configuration code.  Numbers are kept
    as integers (package.json carries no fractional number the code looks at;
    NaN and -0 are not represented).  A function is opaque and only carries a
    label.  An object is its list of own enumerable properties in insertion
    order; the special placement of integer-like keys by the engine is not
    represented, nor are the members an object inherits from
    [Object.prototype] (no key is taken to be one of their names). *)
Inductive value : Type :=
| VUndefined
| VNull
| VBool (b : bool)
| VNum (n : Z)
| VStr (s : string)
| VFun (label : string)
| VArr (items : list value)
| VObj (props : list (string * value)).

(** [BaseObject] of ../types: a plain object. *)
Definition BaseObject : Type := list (string * value).

(** The result of the [typeof] operator. *)
Inductive jstype : Type :=
| TUndefined | TObject | TBoolean | TNumber | TString | TFunction.

Definition typeof (v : value) : jstype :=
  match v with
  | VUndefined => TUndefined
  | VNull => TObject
  | VBool _ => TBoolean
  | VNum _ => TNumber
  | VStr _ => TString
  | VFun _ => TFunction
  | VArr _ => TObject
  | VObj _ => TObject
  end.

Definition isTObject (v : value) : bool :=
  match typeof v with TObject => true | _ => false end.

(** ToBoolean: the falsy values are undefined, null, false, 0 and the empty
    string. *)
Definition truthy (v : value) : bool :=
  match v with
  | VUndefined | VNull => false
  | VBool b => b
  | VNum n => negb (n =? 0)%Z
  | VStr s => negb (s =? "")
  | VFun _ | VArr _ | VObj _ => true
  end.

(** [!v] *)
Definition falsy (v : value) : bool := negb (truthy v).

(** [a || b] *)
Definition orElse (a b : value) : value := if truthy a then a else b.

Definition isNullish (v : value) : bool :=
  match v with VUndefined | VNull => true | _ => false end.

(** *** Own properties *)

Fixpoint lookup (k : string) (o : BaseObject) : option value :=
  match o with
  | [] => None
  | (k', v) :: o' => if k =? k' then Some v else lookup k o'
  end.

(** [o[k]]: reading an absent property gives undefined. *)
Definition get (o : BaseObject) (k : string) : value :=
  match lookup k o with Some v => v | None => VUndefined end.

(** [o[k] = v]: an existing property keeps its position, a new one is added
    last. *)
Fixpoint set (k : string) (v : value) (o : BaseObject) : BaseObject :=
  match o with
  | [] => [(k, v)]
  | (k', v') :: o' => if k =? k' then (k', v) :: o' else (k', v') :: set k v o'
  end.

(** [delete o[k]] *)
Fixpoint delete (k : string) (o : BaseObject) : BaseObject :=
  match o with
  | [] => []
  | (k', v') :: o' => if k =? k' then o' else (k', v') :: delete k o'
  end.

(** [Object.keys(o)] *)
Definition keys (o : BaseObject) : list string := map fst o.

(** [Object.prototype.hasOwnProperty.call(o, k)] *)
Definition hasOwnProperty (o : BaseObject) (k : string) : bool :=
  match lookup k o with Some _ => true | None => false end.

(** [Object.assign(target, source)] where [source] may be undefined. *)
Definition assign (target : BaseObject) (source : option BaseObject) : BaseObject :=
  match source with
  | None => target
  | Some src => fold_left (fun t k => set k (get src k) t) (keys src) target
  end.

(** [Object.keys(v).length] for a value of type object that is not null. *)
Definition ownKeyCount (v : value) : nat :=
  match v with
  | VArr items => List.length items
  | VObj props => List.length props
  | _ => 0
  end.

(** [v.k] on an arbitrary value: reading a property of undefined or null
    throws a TypeError ([None]); a plain object is looked up; the other values
    have none of the property names this program reads (indices, [length] and
    prototype members are not looked at). *)
Definition getProp (v : value) (k : string) : option value :=
  match v with
  | VUndefined | VNull => None
  | VObj props => Some (get props k)
  | _ => Some VUndefined
  end.

(** [v?.k] *)
Definition getPropOpt (v : value) (k : string) : value :=
  match getProp v k with Some x => x | None => VUndefined end.

(** Objects built by the engine never carry the same key twice, at any
    depth. *)
Fixpoint distinct (ks : list string) : bool :=
  match ks with
  | [] => true
  | k :: ks' => negb (existsb (String.eqb k) ks') && distinct ks'
  end.

Fixpoint wf (v : value) : bool :=
  match v with
  | VArr items => forallb wf items
  | VObj props => distinct (map fst props) && forallb (fun p => wf (snd p)) props
  | _ => true
  end.

Definition wfObject (o : BaseObject) : bool := wf (VObj o).

End JS.

(** ** packages/serendipity-public/src/utils/package-manager.ts *)

Module PackageManager.
Import JS.

Inductive PackageManagerName : Type := npm | yarn.

(** A thrown [Error] with its message. *)
Inductive exn : Type := Error (message : string).

Inductive result (A : Type) : Type :=
| Returns (a : A)
| Throws (e : exn).
Arguments Returns {A} a.
Arguments Throws {A} e.

Record PackageManagerOptions : Type := {
  opt_basePath : string;
  opt_managerName : option PackageManagerName;
  opt_packageConfig : option BaseObject
}.

Record t : Type := {
  basePath : string;
  managerName : PackageManagerName;
  packageConfig : BaseObject
}.

Definition withPackageConfig (this : t) (c : BaseObject) : t :=
  {| basePath := basePath this; managerName := managerName this; packageConfig := c |}.

Section Program.

(** What the class imports and this development does not have the text of:
    the two merge helpers (./merge-deps and ../index), the npm library
    sort-package-json, the skeleton constant of ../index, the module loader of
    ./resolve-module and the two Node built-ins it calls.  [resolveModule]
    answers [None] when the original throws. *)
Variable mergeDependencies : value -> value -> value.
Variable webpackMerge : value -> value -> value.
Variable sortPackageJson : BaseObject -> BaseObject.
Variable PACKAGE_JSON_BASE : BaseObject.
Variable resolveModule : string -> option BaseObject.
Variable path_resolve : string -> string -> string.
Variable existsSync : string -> bool.

Definition getPackageManagerName (basePath : string) : PackageManagerName :=
  let isYarnLockJsonExist := existsSync (path_resolve basePath "yarn.lock") in
  if isYarnLockJsonExist then yarn else npm.

(** [managerName || ...] and [packageConfig || PACKAGE_JSON_BASE]: an option
    that was not passed is undefined. *)
Definition constructor (options : PackageManagerOptions) : t :=
  {| basePath := opt_basePath options;
     managerName := match opt_managerName options with
                    | Some n => n
                    | None => getPackageManagerName (opt_basePath options)
                    end;
     packageConfig := match opt_packageConfig options with
                      | Some c => c
                      | None => PACKAGE_JSON_BASE
                      end |}.

(** The error [resolvePackageConfig] throws (ConfigNotFound in the design
    document). *)
Definition ConfigNotFound : exn := Error "package.json 文件不存在！".

Definition resolvePackageConfig (this : t) : result (t * bool) :=
  let packageConfigPath := path_resolve (basePath this) "package.json" in
  match resolveModule packageConfigPath with
  | Some c => Returns (withPackageConfig this c, true)
  | None => Throws ConfigNotFound
  end.

Definition createWithResolve (basePath : string) : result t :=
  let managerName := getPackageManagerName basePath in
  let manager := constructor {| opt_basePath := basePath;
                                opt_managerName := Some managerName;
                                opt_packageConfig := None |} in
  match resolvePackageConfig manager with
  | Returns (manager', _) => Returns manager'
  | Throws e => Throws e
  end.

Definition createWithOptions (options : PackageManagerOptions) : t :=
  constructor options.

(** The defaults of [mergeIntoCurrent], overridden by the caller's options. *)
Definition resultOptions (options : option BaseObject) : BaseObject :=
  assign [("merge", VBool true); ("ignoreNullOrUndefined", VBool true)] options.

Definition isDependenciesKey (key : string) : bool :=
  (key =? "dependencies") || (key =? "devDependencies").

(** One turn of the loop of [mergeIntoCurrent].  [this.packageConfig[key]] is
    read as an own property; at a key the configuration does not have and
    that names a member of [Object.prototype] the engine would find that
    member instead of undefined. *)
Definition mergeKey (opts data : BaseObject) (config : BaseObject) (key : string)
  : BaseObject :=
  let val := get data key in
  let oldValue := get config key in
  if truthy (get opts "ignoreNullOrUndefined") && falsy val then config
  else if falsy (get opts "merge") || falsy oldValue then set key val config
  else if isTObject val && isDependenciesKey key then
    set key (mergeDependencies oldValue val) config
  else if isTObject val && isTObject oldValue then
    set key (webpackMerge oldValue val) config
  else config.

Definition mergeIntoCurrent (this : t) (data : BaseObject) (options : option BaseObject)
  : t :=
  let opts := resultOptions options in
  withPackageConfig this
    (fold_left (mergeKey opts data) (keys data) (packageConfig this)).

(** The test of the pruning loop:
    [val !== null && typeof val === 'object' && Object.keys(val).length === 0]. *)
Definition isEmptyObject (val : value) : bool :=
  negb (match val with VNull => true | _ => false end)
  && isTObject val && (ownKeyCount val =? 0)%nat.

Definition pruneKey (tmp : BaseObject) (tmpKey : string) : BaseObject :=
  if hasOwnProperty tmp tmpKey then
    let val := get tmp tmpKey in
    if isEmptyObject val then delete tmpKey tmp else tmp
  else tmp.

(** [getPackageConfig] works on the stored object itself ([tmp] is the same
    object as [this.packageConfig]), so the manager after the call is part of
    the result. *)
Definition getPackageConfig (this : t) : t * BaseObject :=
  let tmp := fold_left pruneKey (keys (packageConfig this)) (packageConfig this) in
  (withPackageConfig this tmp, sortPackageJson tmp).

Definition setPackageConfig (this : t) (c : BaseObject) : t :=
  withPackageConfig this c.

End Program.

End PackageManager.

(** ** The helpers the sources import but do not contain *)

Module SpecModel.
Import JS.

Section DependencyMerger.

(** [newerRange incoming existing]: the incoming range is a valid semver range
    that is more specific or newer than the existing one.  The design document
    names this test and does not define it, so the merger is stated over any
    such test. *)
Variable newerRange : string -> string -> bool.

(** The entry of one incoming package name. *)
Definition mergeDep (acc : BaseObject) (entry : string * value) : BaseObject :=
  let (name, incoming) := entry in
  match lookup name acc with
  | None => set name incoming acc
  | Some existing =>
      match existing, incoming with
      | VStr e, VStr r => if newerRange r e then set name incoming acc else acc
      | _, _ => acc
      end
  end.

(** Modelled from the spec: mergeDependencies of ./merge-deps, which is not
    among the sources.  Section 4.1: a name present in only one map is carried
    unchanged; for a name present in both, the incoming version is preferred
    when it is a valid, more specific or newer range than the existing one,
    otherwise the existing version is kept; the inputs are not changed and a
    new map is returned.  Outside that contract (an argument that is not a
    mapping, an entry that is not a string) the existing side is kept. *)
Definition mergeDependencies (existing incoming : value) : value :=
  match existing, incoming with
  | VObj os, VObj vs => VObj (fold_left mergeDep vs os)
  | _, _ => existing
  end.

Definition isMapping (v : value) : bool :=
  match v with VObj _ => true | _ => false end.

(** The rules of section 4.2 for one key of the incoming mapping, with the
    default options; [rec] merges the two values found at a key. *)
Definition mergeEntry (rec : value -> value -> value)
  (acc : BaseObject) (entry : string * value) : BaseObject :=
  let (k, x) := entry in
  if isNullish x then acc
  else match lookup k acc with
       | None => set k x acc
       | Some e =>
           if isNullish e then set k x acc
           else if PackageManager.isDependenciesKey k && isMapping x then
             set k (mergeDependencies e x) acc
           else set k (rec e x) acc
       end.

(** Modelled from the spec: webpackMerge of ../index, which is not among the
    sources.  Section 4.2, rule 4: two mappings are deep-merged recursively by
    the same rules, under the default options (1: an incoming null or
    undefined is skipped, 2: with no existing value, that is none or an
    undefined or null one, the incoming one is written, 3: a dependency key
    with an incoming mapping goes to the dependency merger); a scalar or an
    array at a key overwrites rather than concatenates; rule 5: on a type
    mismatch (an incoming mapping over an existing value that is not one) the
    existing value is left. *)
Fixpoint webpackMerge (existing incoming : value) {struct incoming} : value :=
  match incoming with
  | VObj fs =>
      match existing with
      | VObj os => VObj (fold_left (mergeEntry webpackMerge) fs os)
      | _ => existing
      end
  | _ => incoming
  end.

End DependencyMerger.

(** *** A reading of semver ranges

    Enough of semver to run the examples: an optional [^] or [~] followed by
    MAJOR.MINOR.PATCH in decimal digits. *)

Definition digit (c : ascii) : option nat :=
  let n := nat_of_ascii c in
  if (48 <=? n)%nat && (n <=? 57)%nat then Some (n - 48)%nat else None.

Fixpoint number (s : string) (acc : option nat) : option nat * string :=
  match s with
  | EmptyString => (acc, EmptyString)
  | String c s' =>
      match digit c with
      | Some d => number s' (Some (10 * match acc with Some a => a | None => 0 end + d)%nat)
      | None => (acc, s)
      end
  end.

Definition dot (s : string) : option string :=
  match s with
  | String "." s' => Some s'
  | _ => None
  end.

Definition stripOperator (s : string) : string :=
  match s with
  | String "^" s' => s'
  | String "~" s' => s'
  | _ => s
  end.

Definition parseRange (s : string) : option (nat * nat * nat) :=
  match number (stripOperator s) None with
  | (Some major, s1) =>
      match dot s1 with
      | Some s1' =>
          match number s1' None with
          | (Some minor, s2) =>
              match dot s2 with
              | Some s2' =>
                  match number s2' None with
                  | (Some patch, EmptyString) => Some (major, minor, patch)
                  | _ => None
                  end
              | None => None
              end
          | _ => None
          end
      | None => None
      end
  | _ => None
  end.

Definition versionLt (a b : nat * nat * nat) : bool :=
  let '(a1, a2, a3) := a in
  let '(b1, b2, b3) := b in
  (a1 <? b1)%nat
  || ((a1 =? b1)%nat && ((a2 <? b2)%nat || ((a2 =? b2)%nat && (a3 <? b3)%nat))).

(** Modelled from the spec: the test "a valid, more specific/newer semver
    range than the existing one" of section 4.1, on the ranges [parseRange]
    reads. *)
Definition semverNewer (incoming existing : string) : bool :=
  match parseRange incoming, parseRange existing with
  | Some r, Some e => versionLt e r
  | _, _ => false
  end.

(** *** Key order *)

Fixpoint insertByKey (p : string * value) (o : BaseObject) : BaseObject :=
  match o with
  | [] => [p]
  | q :: o' => if String.leb (fst p) (fst q) then p :: q :: o' else q :: insertByKey p o'
  end.

(** Modelled from the spec: sortPackageJson of the npm library
    sort-package-json, which is not among the sources.  Section 4.3: the
    configuration is returned with a stable, deterministic key ordering (a
    lexicographic one is acceptable); the entries themselves are kept. *)
Definition sortPackageJson (o : BaseObject) : BaseObject :=
  fold_right insertByKey [] o.

End SpecModel.

(** ** packages/serendipity-service-react/src/core/ReactService.ts *)

Module ReactService.
Import JS.

(** What a plugin's [runtime] hook does with the context it is handed: the
    calls of [mergeWebpackConfig] it makes, each with its configurations, and
    whether it then throws (a missing hook throws at once). *)
Record PluginModule : Type := {
  runtimeCalls : list (list value);
  runtimeThrows : bool
}.

(** The part of AppManager (serendipity-public) the service reads. *)
Record AppManager : Type := {
  getAppConfig : value;
  getPluginModules : list PluginModule
}.

Record t : Type := {
  devServerConfig : value;
  appManager : AppManager;
  webpackConfig : value
}.

(** The calls the service makes to the outside, in order. *)
Inductive event : Type :=
| SetEnv (name : string) (val : string)
| Webpack (configuration : value)
| NewWebpackDevServer (compilerOf : value) (options : value)
| Listen (port : value) (host : value).

Inductive completion : Type := Normal | Thrown.

Section Program.

(** Imports whose text is not among the sources: the variadic merge of
    serendipity-public, the two configuration builders of ../webpack, the
    constants of ../common/constants, and the built-in [String]. *)
Variable webpackMerge : value -> list value -> value.
Variable getBaseConfig : value -> value.
Variable getDevServerConfig : value.
Variable DEFAULT_WEBPACK_DEV_SERVER_HOST : value.
Variable DEFAULT_WEBPACK_DEV_SERVER_PORT : value.
Variable String_ : value -> string.

Definition withWebpackConfig (this : t) (c : value) : t :=
  {| devServerConfig := devServerConfig this;
     appManager := appManager this;
     webpackConfig := c |}.

Definition constructor (manager : AppManager) : t :=
  {| appManager := manager;
     webpackConfig := getBaseConfig (getAppConfig manager);
     devServerConfig := getDevServerConfig |}.

Definition mergeWebpackConfig (this : t) (configurations : list value) : t :=
  withWebpackConfig this (webpackMerge (webpackConfig this) configurations).

(** The plugins run in order; the first one that throws ends the loop. *)
Fixpoint runRuntimePlugins (pluginModules : list PluginModule) (this : t)
  : t * completion :=
  match pluginModules with
  | [] => (this, Normal)
  | pluginModule :: rest =>
      let this' := fold_left mergeWebpackConfig (runtimeCalls pluginModule) this in
      if runtimeThrows pluginModule then (this', Thrown)
      else runRuntimePlugins rest this'
  end.

(** [Object.assign({}, v)] for the dev-server options: a copy with the same
    own properties. *)
Definition copyOf (v : value) : value :=
  match v with
  | VObj props => VObj props
  | _ => VObj []
  end.

Definition start (this : t) : t * list event * completion :=
  let appConfig := getAppConfig (appManager this) in
  match runRuntimePlugins (getPluginModules (appManager this)) this with
  | (this1, Thrown) => (this1, [], Thrown)
  | (this1, Normal) =>
      let userConfig := getPropOpt (getPropOpt appConfig "webpack") "webpackConfig" in
      let this2 := if truthy userConfig then mergeWebpackConfig this1 [userConfig]
                   else this1 in
      let devServerOptions := copyOf (devServerConfig this2) in
      let env := SetEnv "DEV_SERVER_PORT" (String_ (getPropOpt devServerOptions "port")) in
      let compiler := Webpack (webpackConfig this2) in
      let server := NewWebpackDevServer (webpackConfig this2) devServerOptions in
      match getProp appConfig "additional" with
      | None => (this2, [env; compiler; server], Thrown)
      | Some additionalData =>
          (this2,
           [env; compiler; server;
            Listen (orElse (getPropOpt additionalData "webpackDevServerPort")
                          DEFAULT_WEBPACK_DEV_SERVER_PORT)
                   (orElse (getPropOpt additionalData "webpackDevServerHost")
                          DEFAULT_WEBPACK_DEV_SERVER_HOST)],
           Normal)
      end
  end.

End Program.

(** The calls a run made. *)
Definition trace (run : t * list event * completion) : list event := snd (fst run).

(** The pair handed to [server.listen], if the run got that far. *)
Fixpoint listened (log : list event) : option (value * value) :=
  match log with
  | [] => None
  | Listen port host :: _ => Some (port, host)
  | _ :: log' => listened log'
  end.

End ReactService.

(** ** CoreManager.validateCreateCommand (packages/serendipity/src/coreManager) *)

Module CoreManager.

(** The arguments of the create command; [None] is an absent ([undefined])
    project type. *)
Record CreateOptions : Type := { type : option string }.

Record Validation : Type := { validated : bool; message : option string }.

(** The message the test suite expects for a missing project type. *)
Definition EMPTY_TYPE_MESSAGE : string :=
  "service 类型为空，请选择一个正确的项目类型，例如 'react'".

(** Modelled from the spec: CoreManager.validateCreateCommand of
    ../src/coreManager, which is not among the sources (only its test is).
    Section 4.5: validation fails, with a message, when the required
    project-type argument is absent or empty, and succeeds, with a null
    message, otherwise; no I/O. *)
Definition validateCreateCommand (args : CreateOptions) : Validation :=
  match type args with
  | None => {| validated := false; message := Some EMPTY_TYPE_MESSAGE |}
  | Some s =>
      if s =? "" then {| validated := false; message := Some EMPTY_TYPE_MESSAGE |}
      else {| validated := true; message := None |}
  end.

End CoreManager.

(** ** Keyed updates

    The three merge loops of this development (the loop of [mergeIntoCurrent]
    and the two helpers) all have one shape: for each key of the incoming
    object, read the current value at that key, and either leave the object
    alone or write one value at that key. *)

Module Keyed.
Import JS.

Definition rule : Type := option value -> option value.

Definition update (g : rule) (k : string) (o : BaseObject) : BaseObject :=
  match g (lookup k o) with
  | Some y => set k y o
  | None => o
  end.

Definition updates (us : list (string * rule)) (o : BaseObject) : BaseObject :=
  fold_left (fun acc u => update (snd u) (fst u) acc) us o.

(** A rule is settled when it accepts its own output: applied to the value it
    wrote, it writes the same value again or nothing. *)
Definition settled (g : rule) : Prop :=
  forall o y, g o = Some y -> g (Some y) = None \/ g (Some y) = Some y.

(** A rule is at rest on a stored value when it would not change it. *)
Definition atRest (g : rule) (o : option value) : Prop :=
  g o = None \/ (g o = o).

(** The two laws the merge loops need of a helper [f] at an incoming value:
    merging the value into itself gives it back, and merging it in a second
    time changes nothing. *)
Definition selfMerge (f : value -> value -> value) (v : value) : Prop :=
  f v v = v.

Definition absorbed (f : value -> value -> value) (v : value) : Prop :=
  forall o, f (f o v) v = f o v.

End Keyed.

(** ** The merge loops as keyed updates *)

Module Rules.
Import JS Keyed.

Section Program.

Variable mergeDependencies : value -> value -> value.
Variable webpackMerge : value -> value -> value.

(** The decision of one turn of the loop of [mergeIntoCurrent], as a function
    of what is stored at the key. *)
Definition mergeRule (opts : BaseObject) (key : string) (val : value) : rule :=
  fun stored =>
    let oldValue := match stored with Some v => v | None => VUndefined end in
    if truthy (get opts "ignoreNullOrUndefined") && falsy val then None
    else if falsy (get opts "merge") || falsy oldValue then Some val
    else if isTObject val && PackageManager.isDependenciesKey key then
      Some (mergeDependencies oldValue val)
    else if isTObject val && isTObject oldValue then
      Some (webpackMerge oldValue val)
    else None.

Definition mergeRules (opts data : BaseObject) : list (string * rule) :=
  map (fun key => (key, mergeRule opts key (get data key))) (keys data).

(** What the loop of [mergeIntoCurrent] needs of the two helpers at an
    incoming value for a second run to change nothing. *)
Definition mergeLaws (val : value) : Prop :=
  selfMerge mergeDependencies val /\ absorbed mergeDependencies val /\
  selfMerge webpackMerge val /\ absorbed webpackMerge val /\
  forall old, truthy old = true ->
    (truthy (mergeDependencies old val) = true \/ mergeDependencies old val = val) /\
    (truthy (webpackMerge old val) = true \/ webpackMerge old val = val).

End Program.

Section SpecModel.

Variable newerRange : string -> string -> bool.

Definition depRule (incoming : value) : rule :=
  fun stored =>
    match stored with
    | None => Some incoming
    | Some (VStr e) =>
        match incoming with
        | VStr r => if newerRange r e then Some incoming else None
        | _ => None
        end
    | Some _ => None
    end.

Definition depRules (vs : BaseObject) : list (string * rule) :=
  map (fun p => (fst p, depRule (snd p))) vs.

Definition entryRule (rec : value -> value -> value) (k : string) (x : value) : rule :=
  fun stored =>
    if isNullish x then None
    else match stored with
         | None => Some x
         | Some e =>
             if isNullish e then Some x
             else if PackageManager.isDependenciesKey k && SpecModel.isMapping x then
               Some (SpecModel.mergeDependencies newerRange e x)
             else Some (rec e x)
         end.

Definition entryRules (rec : value -> value -> value) (fs : BaseObject)
  : list (string * rule) :=
  map (fun p => (fst p, entryRule rec (fst p) (snd p))) fs.

End SpecModel.

End Rules.

(** ** The program with the modelled helpers plugged in *)

Module Concrete.
Import JS.

Definition mergeDependencies : value -> value -> value :=
  SpecModel.mergeDependencies SpecModel.semverNewer.

Definition webpackMerge : value -> value -> value :=
  SpecModel.webpackMerge SpecModel.semverNewer.

Definition mergeIntoCurrent :
  PackageManager.t -> BaseObject -> option BaseObject -> PackageManager.t :=
  PackageManager.mergeIntoCurrent mergeDependencies webpackMerge.

Definition getPackageConfig : PackageManager.t -> PackageManager.t * BaseObject :=
  PackageManager.getPackageConfig SpecModel.sortPackageJson.

(** A manager of the directory /app, driven by npm, holding [c]. *)
Definition manager (c : BaseObject) : PackageManager.t :=
  {| PackageManager.basePath := "/app";
     PackageManager.managerName := PackageManager.npm;
     PackageManager.packageConfig := c |}.

(** The fragment [{dependencies: {name: range}}]. *)
Definition dependency (name range : string) : BaseObject :=
  [("dependencies", VObj [(name, VStr range)])].

(** The stored configuration has no version of [name] yet: it has no
    dependencies (or a falsy value there), or a dependencies mapping without
    that name. *)
Definition noDependency (config : BaseObject) (name : string) : bool :=
  match get config "dependencies" with
  | VObj deps => negb (hasOwnProperty deps name)
  | v => negb (truthy v)
  end.

(** [config.dependencies?.[name]] *)
Definition dependencyOf (config : BaseObject) (name : string) : value :=
  getPropOpt (get config "dependencies") name.

(** A stand-in for PACKAGE_JSON_BASE, whose text is not among the sources. *)
Definition skeleton : BaseObject :=
  [("name", VStr "serendipity-project"); ("version", VStr "1.0.0")].

(** [path.resolve] on an absolute directory and a file name. *)
Definition path_resolve (dir file : string) : string := dir ++ "/" ++ file.

(** A disk on which nothing can be found. *)
Definition nothingExists (path : string) : bool := false.

Definition nothingResolves (path : string) : option BaseObject := None.

(** A disk that holds /app/package.json. *)
Definition appResolves (path : string) : option BaseObject :=
  if path =? "/app/package.json" then Some [("name", VStr "app")] else None.

(** The built-in [String], on the values whose text does not depend on the
    engine. *)
Definition String_ (v : value) : string :=
  match v with
  | VUndefined => "undefined"
  | VNull => "null"
  | VBool true => "true"
  | VBool false => "false"
  | VNum n => NilZero.string_of_int (Z.to_int n)
  | VStr s => s
  | _ => "[object Object]"
  end.

(** The variadic merge: the configurations are merged in from left to
    right. *)
Definition mergeAll (first : value) (configurations : list value) : value :=
  fold_left webpackMerge configurations first.

(** The defaults the comment in [start] gives: 9000 and 0.0.0.0. *)
Definition start : ReactService.t ->
  ReactService.t * list ReactService.event * ReactService.completion :=
  ReactService.start mergeAll (VStr "0.0.0.0") (VNum 9000) String_.

(** A service whose only plugin contributes a dev-server host and port of its
    own, for a project whose configuration file is [appConfig]. *)
Definition service (appConfig : value) : ReactService.t :=
  {| ReactService.devServerConfig := VObj [("port", VNum 9000); ("hot", VBool true)];
     ReactService.appManager :=
       {| ReactService.getAppConfig := appConfig;
          ReactService.getPluginModules :=
            [{| ReactService.runtimeCalls :=
                  [[VObj [("devServer",
                           VObj [("port", VNum 3000); ("host", VStr "10.0.0.1")])]]];
                ReactService.runtimeThrows := false |}] |};
     ReactService.webpackConfig := VObj [("mode", VStr "development")] |}.

End Concrete.

(** ** package-manager.ts: the methods that run commands and write files *)

Module PackageManagerIO.
Import JS PackageManager.

(** [ModuleInstallOptions] of ../types, as far as the class reads it.  A
    field that was not passed is [None]; [onError] is present when it is a
    function, and is given by what the call [onError(e)] does: return
    ([None]) or throw. *)
Record ModuleInstallOptions : Type := {
  name : string;
  version : option string;
  localPath : option string;
  onError : option (exn -> option exn)
}.

(** The truth value of an optional string: undefined and the empty string are
    falsy. *)
Definition given (field : option string) : option string :=
  match field with
  | Some s => if s =? "" then None else Some s
  | None => None
  end.

(** [`${this.managerName}`] *)
Definition managerWord (n : PackageManagerName) : string :=
  match n with npm => "npm" | yarn => "yarn" end.

Definition getInstallCommand (this : t) (installOptions : ModuleInstallOptions)
  : string * list string :=
  let command :=
    (managerWord (managerName this) ++ " " ++
     match managerName this with yarn => "add" | npm => "install" end)%string in
  let args :=
    match given (localPath installOptions) with
    | Some p => [("file:" ++ p)%string]
    | None =>
        [(name installOptions ++
          match given (version installOptions) with
          | Some v => "@" ++ v
          | None => ""
          end)%string]
    end in
  (command, args).

(** The calls the class makes to the outside. *)
Inductive call : Type :=
| RunCommand (command : string) (args : list string) (cwd : string)
| ResolveModule (path : string)
| OnError (e : exn)
| WriteFile (path : string) (content : string).

(** [String(e)] for a thrown [Error]. *)
Definition errorText (e : exn) : string :=
  match e with
  | Error m => if m =? "" then "Error" else ("Error: " ++ m)%string
  end.

Section World.

(** The outside: [runCommand] and [writeFilePromise] of ../index answer the
    error they reject with, if any; [resolveModule] of ./resolve-module
    returns a module or throws; [path.resolve] is taken at three arguments;
    [JSON.stringify(_, null, 2)] and the sorter are as before. *)
Variable runCommand : string -> list string -> string -> option exn.
Variable resolveModule : string -> result value.
Variable path_resolve3 : string -> string -> string -> string.
Variable path_resolve : string -> string -> string.
Variable writeFilePromise : string -> string -> option exn.
Variable JSON_stringify : BaseObject -> string.
Variable sortPackageJson : BaseObject -> BaseObject.

(** The [catch] block of [addAndInstallModule], entered with [e] after the
    calls in [log]; when the handler returns, the method goes on to its last
    line and returns an empty object. *)
Definition caught (installOptions : ModuleInstallOptions) (log : list call) (e : exn)
  : list call * result value :=
  match onError installOptions with
  | Some handler =>
      match handler e with
      | None => ((log ++ [OnError e])%list, Returns (VObj []))
      | Some e' => ((log ++ [OnError e])%list, Throws e')
      end
  | None => (log, Throws (Error (errorText e)))
  end.

Definition addAndInstallModule (this : t) (installOptions : option ModuleInstallOptions)
  : list call * result value :=
  match installOptions with
  | None => ([], Returns (VObj []))
  | Some o =>
      let (command, args) := getInstallCommand this o in
      let ran := RunCommand command args (basePath this) in
      match runCommand command args (basePath this) with
      | Some e => caught o [ran] e
      | None =>
          let path := path_resolve3 (basePath this) "node_modules" (name o) in
          match resolveModule path with
          | Returns m => ([ran; ResolveModule path], Returns m)
          | Throws e => caught o [ran; ResolveModule path] e
          end
      end
  end.

(** [writePackageConfig]: the arguments of the write are computed first, and
    computing the second one prunes the stored configuration. *)
Definition writePackageConfig (this : t) : t * list call * option exn :=
  let path := path_resolve (basePath this) "package.json" in
  let (this', config) := getPackageConfig sortPackageJson this in
  let content := JSON_stringify config in
  (this', [WriteFile path content], writeFilePromise path content).

End World.

End PackageManagerIO.

(** ** ReactService.ts: the production build *)

Module ReactServiceBuild.
Import JS ReactService.

(** The calls [build] makes to the outside. *)
Inductive buildCall : Type :=
| Compile (configuration : value)
| Run.

Section Program.

Variable webpackMerge : value -> list value -> value.

Definition build (this : t) : t * list buildCall * completion :=
  let appConfig := getAppConfig (appManager this) in
  match runRuntimePlugins webpackMerge (getPluginModules (appManager this)) this with
  | (this1, Thrown) => (this1, [], Thrown)
  | (this1, Normal) =>
      let userConfig := getPropOpt (getPropOpt appConfig "webpack") "webpackConfig" in
      let this2 := if truthy userConfig
                   then mergeWebpackConfig webpackMerge this1 [userConfig]
                   else this1 in
      (this2, [Compile (webpackConfig this2); Run], Normal)
  end.

(** The plugins whose [runtime] hook gets called: all of them up to the first
    one that throws, that one included. *)
Fixpoint reached (pluginModules : list PluginModule) : list PluginModule :=
  match pluginModules with
  | [] => []
  | p :: rest => if runtimeThrows p then [p] else p :: reached rest
  end.

(** The configuration after the calls [calls] of [mergeWebpackConfig]. *)
Definition merged (calls : list (list value)) (configuration : value) : value :=
  fold_left webpackMerge calls configuration.

(** The configuration the compiler is built from when every plugin returns:
    the plugins' calls in plugin order, then the user's webpack configuration
    if there is one. *)
Definition compiled (this : t) : value :=
  let afterPlugins :=
    merged (flat_map runtimeCalls (getPluginModules (appManager this)))
           (webpackConfig this) in
  let userConfig :=
    getPropOpt (getPropOpt (getAppConfig (appManager this)) "webpack") "webpackConfig" in
  if truthy userConfig then webpackMerge afterPlugins [userConfig] else afterPlugins.

End Program.

End ReactServiceBuild.

(** ** An outside world to run the examples in *)

Module ConcreteIO.
Import JS PackageManager PackageManagerIO.

Definition path_resolve3 (dir sub file : string) : string :=
  dir ++ "/" ++ sub ++ "/" ++ file.

(** A package manager that succeeds, and one that fails. *)
Definition commandSucceeds (command : string) (args : list string) (cwd : string)
  : option exn := None.

Definition commandFails (command : string) (args : list string) (cwd : string)
  : option exn := Some (Error "exit code 1").

(** A node_modules in which only left-pad can be found. *)
Definition resolveLeftPad (path : string) : result value :=
  if path =? "/app/node_modules/left-pad"
  then Returns (VObj [("name", VStr "left-pad")])
  else Throws (Error "Cannot find module").

(** A handler that takes note of the error and returns. *)
Definition swallow (e : exn) : option exn := None.

Definition quote : string := String (ascii_of_nat 34) EmptyString.

Definition newline : string := String (ascii_of_nat 10) EmptyString.

(** Strings are taken to be free of control characters; the double quote and
    the backslash are escaped. *)
Fixpoint escape (s : string) : string :=
  match s with
  | EmptyString => EmptyString
  | String c s' =>
      if (Ascii.eqb c (ascii_of_nat 34) || Ascii.eqb c (ascii_of_nat 92))%bool
      then String (ascii_of_nat 92) (String c (escape s'))
      else String c (escape s')
  end.

Definition join (separator : string) (parts : list string) : string :=
  match parts with
  | [] => ""
  | p :: rest => fold_left (fun acc q => acc ++ separator ++ q) rest p
  end.

(** [JSON.stringify(v, null, 2)] at nesting [indent]; [None] where the
    built-in answers undefined (an undefined value, a function). *)
Fixpoint stringify (indent : string) (v : value) : option string :=
  match v with
  | VUndefined | VFun _ => None
  | VNull => Some "null"
  | VBool b => Some (if b then "true" else "false")
  | VNum n => Some (NilZero.string_of_int (Z.to_int n))
  | VStr s => Some (quote ++ escape s ++ quote)
  | VArr items =>
      let inner := indent ++ "  " in
      let lines :=
        map (fun x => inner ++ match stringify inner x with
                               | Some text => text
                               | None => "null"
                               end) items in
      match lines with
      | [] => Some "[]"
      | _ => Some ("[" ++ newline ++ join ("," ++ newline) lines
                       ++ newline ++ indent ++ "]")
      end
  | VObj props =>
      let inner := indent ++ "  " in
      let lines :=
        flat_map (fun p => match stringify inner (snd p) with
                           | Some text =>
                               [inner ++ quote ++ escape (fst p) ++ quote ++ ": " ++ text]
                           | None => []
                           end) props in
      match lines with
      | [] => Some "{}"
      | _ => Some ("{" ++ newline ++ join ("," ++ newline) lines
                       ++ newline ++ indent ++ "}")
      end
  end.

Definition JSON_stringify (o : BaseObject) : string :=
  match stringify "" (VObj o) with
  | Some text => text
  | None => ""
  end.

(** A parser that knows one document. *)
Definition parseOnly (known : BaseObject) (text : string) : option BaseObject :=
  if text =? JSON_stringify known then Some known else None.

(** A disk that holds one file. *)
Definition diskWith (path content : string) (asked : string) : option string :=
  if asked =? path then Some content else None.

(** A write that succeeds. *)
Definition writeSucceeds (path content : string) : option exn := None.

Definition writePackageConfig :
  PackageManager.t -> PackageManager.t * list call * option exn :=
  PackageManagerIO.writePackageConfig Concrete.path_resolve writeSucceeds
    JSON_stringify SpecModel.sortPackageJson.

(** A plugin that merges one configuration in and then throws. *)
Definition throwingPlugin : ReactService.PluginModule :=
  {| ReactService.runtimeCalls := [[VObj [("mode", VStr "production")]]];
     ReactService.runtimeThrows := true |}.

(** A service with a first plugin that throws and a second one behind it. *)
Definition brokenService : ReactService.t :=
  {| ReactService.devServerConfig := VObj [("port", VNum 9000)];
     ReactService.appManager :=
       {| ReactService.getAppConfig := VObj [];
          ReactService.getPluginModules :=
            [throwingPlugin;
             {| ReactService.runtimeCalls := [[VObj [("devtool", VBool false)]]];
                ReactService.runtimeThrows := false |}] |};
     ReactService.webpackConfig := VObj [("mode", VStr "development")] |}.

Definition build : ReactService.t ->
  ReactService.t * list ReactServiceBuild.buildCall * ReactService.completion :=
  ReactServiceBuild.build Concrete.mergeAll.

End ConcreteIO.

(** ** Key names the engine orders by number *)

Module KeyNames.

Fixpoint allDigits (s : string) : bool :=
  match s with
  | EmptyString => true
  | String c s' =>
      let n := nat_of_ascii c in
      ((48 <=? n)%nat && (n <=? 57)%nat && allDigits s')%bool
  end.

(** A key written in decimal digits only.  The engine lists the keys that are
    array indices (such keys, without a leading zero and below 2^32 - 1)
    before all others and in ascending order, not in insertion order. *)
Definition integerLike (key : string) : bool :=
  (negb (key =? "") && allDigits key)%bool.

End KeyNames.

(** * Properties *)

Module JSFacts.
Import JS.

Lemma lookup_set_same (k : string) (v : value) (o : BaseObject) :
  lookup k (set k v o) = Some v.
Proof.
  induction o as [|[k' v'] o IH]; simpl.
  - now rewrite String.eqb_refl.
  - destruct (k =? k') eqn:E; simpl; rewrite E; auto.
Qed.

Lemma lookup_set_other (k k' : string) (v : value) (o : BaseObject) :
  k <> k' -> lookup k' (set k v o) = lookup k' o.
Proof.
  intros N. induction o as [|[k0 v0] o IH]; simpl.
  - destruct (k' =? k) eqn:E; auto.
    apply String.eqb_eq in E. congruence.
  - destruct (k =? k0) eqn:E; simpl.
    + apply String.eqb_eq in E; subst k0.
      destruct (k' =? k) eqn:E'; auto.
      apply String.eqb_eq in E'. congruence.
    + now rewrite IH.
Qed.

Lemma set_same (k : string) (v : value) (o : BaseObject) :
  lookup k o = Some v -> set k v o = o.
Proof.
  induction o as [|[k' v'] o IH]; simpl; [discriminate|].
  destruct (k =? k') eqn:E.
  - intros [= ->]. reflexivity.
  - intros H. now rewrite IH.
Qed.

Lemma keys_set_incl (k k' : string) (v : value) (o : BaseObject) :
  In k' (keys o) -> In k' (keys (set k v o)).
Proof.
  unfold keys. induction o as [|[k0 v0] o IH]; simpl; [tauto|].
  destruct (k =? k0); simpl; tauto.
Qed.

Lemma hasOwnProperty_In (o : BaseObject) (k : string) :
  hasOwnProperty o k = true <-> In k (keys o).
Proof.
  unfold hasOwnProperty, keys. induction o as [|[k' v'] o IH]; simpl.
  - split; [discriminate|tauto].
  - destruct (k =? k') eqn:E.
    + apply String.eqb_eq in E. subst. tauto.
    + apply String.eqb_neq in E. rewrite IH. split; [tauto|].
      intros [H|H]; [congruence|assumption].
Qed.

Lemma lookup_None_keys (o : BaseObject) (k : string) :
  lookup k o = None <-> ~ In k (keys o).
Proof.
  rewrite <- hasOwnProperty_In. unfold hasOwnProperty.
  destruct (lookup k o); split; intros H; try congruence; try discriminate;
    try (now elim H).
Qed.

Lemma distinct_NoDup (ks : list string) : distinct ks = true <-> NoDup ks.
Proof.
  induction ks as [|k ks IH]; simpl.
  - split; [constructor|reflexivity].
  - rewrite andb_true_iff, negb_true_iff, IH. split.
    + intros [H1 H2]. constructor; [|assumption].
      intros HI. assert (existsb (String.eqb k) ks = true); [|congruence].
      apply existsb_exists. exists k. split; [assumption|apply String.eqb_refl].
    + intros H. inversion H as [|? ? HN HD]; subst. split; [|assumption].
      destruct (existsb (String.eqb k) ks) eqn:E; [|reflexivity].
      apply existsb_exists in E. destruct E as [x [Hx Hk]].
      apply String.eqb_eq in Hk. subst x. contradiction.
Qed.

End JSFacts.

Module KeyedFacts.
Import JS JSFacts Keyed.

Lemma lookup_update_same (g : rule) (k : string) (o : BaseObject) :
  lookup k (update g k o) =
  match g (lookup k o) with Some y => Some y | None => lookup k o end.
Proof.
  unfold update. destruct (g (lookup k o)); [apply lookup_set_same|reflexivity].
Qed.

Lemma lookup_update_other (g : rule) (k k' : string) (o : BaseObject) :
  k <> k' -> lookup k' (update g k o) = lookup k' o.
Proof.
  intros N. unfold update. destruct (g (lookup k o)); [|reflexivity].
  now apply lookup_set_other.
Qed.

Lemma update_atRest (g : rule) (k : string) (o : BaseObject) :
  atRest g (lookup k o) -> update g k o = o.
Proof.
  unfold atRest, update. intros [H|H]; rewrite H; [reflexivity|].
  destruct (lookup k o) eqn:E; [|reflexivity]. now apply set_same.
Qed.

Lemma keys_update_incl (g : rule) (k k' : string) (o : BaseObject) :
  In k' (keys o) -> In k' (keys (update g k o)).
Proof.
  unfold update. destruct (g (lookup k o)); [apply keys_set_incl|tauto].
Qed.

Lemma keys_updates_incl (us : list (string * rule)) (k' : string) :
  forall o, In k' (keys o) -> In k' (keys (updates us o)).
Proof.
  unfold updates. induction us as [|[k g] us IH]; simpl; intros o H; [assumption|].
  apply IH. now apply keys_update_incl.
Qed.

Lemma lookup_updates_other (us : list (string * rule)) (k : string) :
  ~ In k (map fst us) -> forall o, lookup k (updates us o) = lookup k o.
Proof.
  unfold updates. induction us as [|[k0 g0] us IH]; simpl; intros N o; [reflexivity|].
  rewrite IH by tauto. apply lookup_update_other. intros ->. tauto.
Qed.

Lemma lookup_updates_in (us : list (string * rule)) (k : string) (g : rule) :
  NoDup (map fst us) -> In (k, g) us ->
  forall o, lookup k (updates us o) = lookup k (update g k o).
Proof.
  induction us as [|[k0 g0] us IH]; simpl; intros D I o; [contradiction|].
  inversion D as [|? ? HN HD]; subst.
  destruct I as [E|I].
  - injection E as -> ->.
    change (lookup k (updates us (update g k o)) = lookup k (update g k o)).
    now apply lookup_updates_other.
  - assert (N : k0 <> k).
    { intros ->. apply HN. change k with (fst (k, g)). now apply in_map. }
    change (lookup k (updates us (update g0 k0 o)) = lookup k (update g k o)).
    rewrite (IH HD I), !lookup_update_same.
    now rewrite (lookup_update_other g0 k0 k o N).
Qed.

Lemma updates_fixed (us : list (string * rule)) (o : BaseObject) :
  (forall k g, In (k, g) us -> atRest g (lookup k o)) -> updates us o = o.
Proof.
  unfold updates. induction us as [|[k0 g0] us IH]; simpl; intros H; [reflexivity|].
  rewrite update_atRest by (apply H; now left).
  apply IH. intros k g I. apply H. now right.
Qed.

(** Running a list of settled rules, one per key, a second time changes
    nothing. *)
Lemma updates_idempotent (us : list (string * rule)) (o : BaseObject) :
  NoDup (map fst us) ->
  (forall k g, In (k, g) us -> settled g) ->
  updates us (updates us o) = updates us o.
Proof.
  intros D S. apply updates_fixed. intros k g I.
  rewrite (lookup_updates_in us k g D I), lookup_update_same.
  unfold atRest. destruct (g (lookup k o)) as [y|] eqn:E.
  - destruct (S k g I _ _ E) as [H|H]; rewrite H; tauto.
  - now left.
Qed.

End KeyedFacts.

Module PackageManagerFacts.
Import JS JSFacts Keyed KeyedFacts Rules PackageManager.

Section Merge.

Variable mergeDependencies : value -> value -> value.
Variable webpackMerge : value -> value -> value.

Lemma mergeKey_update (opts data config : BaseObject) (key : string) :
  mergeKey mergeDependencies webpackMerge opts data config key =
  update (mergeRule mergeDependencies webpackMerge opts key (get data key)) key config.
Proof.
  unfold mergeKey, update, mergeRule, get.
  destruct (lookup key config) as [v|]; cbv zeta;
    repeat match goal with |- context [if ?b then _ else _] => destruct b end;
    reflexivity.
Qed.

Lemma mergeLoop_updates (opts data : BaseObject) (ks : list string) :
  forall config,
    fold_left (mergeKey mergeDependencies webpackMerge opts data) ks config =
    updates
      (map (fun key =>
              (key, mergeRule mergeDependencies webpackMerge opts key (get data key))) ks)
      config.
Proof.
  unfold updates. induction ks as [|k ks IH]; simpl; intros config; [reflexivity|].
  now rewrite IH, mergeKey_update.
Qed.

Lemma mergeIntoCurrent_updates (this : t) (data : BaseObject) (options : option BaseObject) :
  packageConfig (mergeIntoCurrent mergeDependencies webpackMerge this data options) =
  updates (mergeRules mergeDependencies webpackMerge (resultOptions options) data)
          (packageConfig this).
Proof. unfold mergeIntoCurrent. simpl. apply mergeLoop_updates. Qed.

Lemma mergeRules_keys (opts data : BaseObject) :
  map fst (mergeRules mergeDependencies webpackMerge opts data) = keys data.
Proof.
  unfold mergeRules. rewrite map_map. simpl. apply map_id.
Qed.

Lemma mergeRules_In (opts data : BaseObject) (key : string) :
  hasOwnProperty data key = true ->
  In (key, mergeRule mergeDependencies webpackMerge opts key (get data key))
     (mergeRules mergeDependencies webpackMerge opts data).
Proof.
  intros I. apply hasOwnProperty_In in I. unfold mergeRules.
  now apply (in_map (fun key =>
    (key, mergeRule mergeDependencies webpackMerge opts key (get data key)))) in I.
Qed.

(** What the merge leaves at a key of the fragment: the outcome of that key's
    own turn of the loop, whatever the other keys did. *)
Lemma mergeIntoCurrent_lookup (this : t) (data : BaseObject)
  (options : option BaseObject) (key : string) :
  distinct (keys data) = true ->
  hasOwnProperty data key = true ->
  lookup key (packageConfig
                (mergeIntoCurrent mergeDependencies webpackMerge this data options)) =
  lookup key
    (update (mergeRule mergeDependencies webpackMerge (resultOptions options) key
                       (get data key))
            key (packageConfig this)).
Proof.
  intros D I. rewrite mergeIntoCurrent_updates.
  apply lookup_updates_in.
  - rewrite mergeRules_keys. now apply distinct_NoDup.
  - now apply mergeRules_In.
Qed.

(** C10. [mergeIntoCurrent] never removes a key: whatever the two helpers
    compute, for every stored configuration, fragment and options, a key that
    is an own property of the stored configuration before the call is still
    one after it. *)
Theorem mergeIntoCurrent_keeps_keys (this : t) (data : BaseObject)
  (options : option BaseObject) (key : string) :
  hasOwnProperty (packageConfig this) key = true ->
  hasOwnProperty
    (packageConfig (mergeIntoCurrent mergeDependencies webpackMerge this data options))
    key = true.
Proof.
  rewrite !hasOwnProperty_In, mergeIntoCurrent_updates.
  apply keys_updates_incl.
Qed.

(** C3, at the inputs where the code departs from it. Under the default
    options a fragment whose values are false, 0 and the empty string is
    skipped whole: the loop tests [!val], not [val == null], so nothing is
    written although no existing value is present. *)
Theorem mergeIntoCurrent_skips_falsy (dir : string) (name : PackageManagerName) :
  packageConfig
    (mergeIntoCurrent mergeDependencies webpackMerge
       {| basePath := dir; managerName := name; packageConfig := [] |}
       [("private", VBool false); ("retries", VNum 0); ("description", VStr "")]
       None) = [].
Proof. reflexivity. Qed.

(** C4, as the code has it. With [merge] on, at a key that is not a dependency
    key and where both the stored and the incoming value are present (truthy):
    when both are of type object (mappings or arrays) the stored value becomes
    [webpackMerge stored incoming]; when either is a scalar the stored value
    stays and the incoming one is dropped. *)
Theorem mergeIntoCurrent_both_present (this : t) (data : BaseObject)
  (options : option BaseObject) (key : string) :
  distinct (keys data) = true ->
  hasOwnProperty data key = true ->
  truthy (get (resultOptions options) "merge") = true ->
  isDependenciesKey key = false ->
  truthy (get (packageConfig this) key) = true ->
  truthy (get data key) = true ->
  get (packageConfig (mergeIntoCurrent mergeDependencies webpackMerge this data options))
      key =
  if isTObject (get data key) && isTObject (get (packageConfig this) key)
  then webpackMerge (get (packageConfig this) key) (get data key)
  else get (packageConfig this) key.
Proof.
  intros D I M K TO TV.
  unfold get at 1. rewrite (mergeIntoCurrent_lookup this data options key D I).
  rewrite lookup_update_same. unfold mergeRule.
  fold (get (packageConfig this) key).
  unfold falsy. rewrite M, K, TO, TV, andb_false_r. simpl.
  rewrite andb_false_r.
  destruct (isTObject (get data key) && isTObject (get (packageConfig this) key));
    reflexivity.
Qed.

(** Under [mergeLaws] a turn of the loop accepts its own output. *)
Lemma mergeRule_settled (opts : BaseObject) (key : string) (val : value) :
  (isTObject val = true -> mergeLaws mergeDependencies webpackMerge val) ->
  settled (mergeRule mergeDependencies webpackMerge opts key val).
Proof.
  intros L o y H. unfold mergeRule in *. unfold falsy in *.
  destruct (truthy (get opts "ignoreNullOrUndefined") && negb (truthy val));
    [discriminate|].
  destruct (negb (truthy (get opts "merge"))) eqn:M; simpl in *.
  { injection H as <-. now right. }
  assert (W : (if negb (truthy val) then Some val
               else if isTObject val && isDependenciesKey key
                    then Some (mergeDependencies val val)
                    else if isTObject val && isTObject val
                         then Some (webpackMerge val val) else None) = None \/
              (if negb (truthy val) then Some val
               else if isTObject val && isDependenciesKey key
                    then Some (mergeDependencies val val)
                    else if isTObject val && isTObject val
                         then Some (webpackMerge val val) else None) = Some val).
  { destruct (truthy val); simpl; [|now right].
    destruct (isTObject val) eqn:OV; simpl; [|now left].
    destruct (L eq_refl) as [Sd [_ [Sw _]]].
    right. destruct (isDependenciesKey key); [now rewrite Sd|now rewrite Sw]. }
  set (oldValue := match o with Some v => v | None => VUndefined end) in *.
  destruct (truthy oldValue) eqn:TO; simpl in H; [|now injection H as <-].
  destruct (isTObject val) eqn:OV; simpl in H; [|discriminate].
  destruct (L eq_refl) as [_ [Ad [_ [Aw T]]]].
  destruct (T oldValue TO) as [Td Tw].
  destruct (isDependenciesKey key) eqn:K.
  - injection H as <-. destruct Td as [Td|Td].
    + rewrite Td. simpl. right. now rewrite Ad.
    + rewrite Td. exact W.
  - destruct (isTObject oldValue); [|discriminate].
    injection H as <-. destruct Tw as [Tw|Tw].
    + rewrite Tw. simpl.
      destruct (isTObject (webpackMerge oldValue val)); [right|now left].
      now rewrite Aw.
    + rewrite Tw, OV. exact W.
Qed.

Lemma manager_ext (a b : t) :
  basePath a = basePath b -> managerName a = managerName b ->
  packageConfig a = packageConfig b -> a = b.
Proof. destruct a, b. simpl. now intros -> -> ->. Qed.

(** A second run of the merge loop with the same fragment changes nothing,
    provided the helpers obey [mergeLaws] at the fragment's values. *)
Lemma mergeIntoCurrent_twice (this : t) (data : BaseObject) (options : option BaseObject) :
  distinct (keys data) = true ->
  (forall key, mergeLaws mergeDependencies webpackMerge (get data key)) ->
  mergeIntoCurrent mergeDependencies webpackMerge
    (mergeIntoCurrent mergeDependencies webpackMerge this data options) data options =
  mergeIntoCurrent mergeDependencies webpackMerge this data options.
Proof.
  intros D L. apply manager_ext; try reflexivity.
  rewrite mergeIntoCurrent_updates, (mergeIntoCurrent_updates this).
  apply updates_idempotent.
  - rewrite mergeRules_keys. now apply distinct_NoDup.
  - intros k g I. unfold mergeRules in I. apply in_map_iff in I.
    destruct I as [key [Eq _]]. injection Eq as <- <-.
    apply mergeRule_settled. intros _. apply L.
Qed.

End Merge.

End PackageManagerFacts.

Module SpecModelFacts.
Import JS JSFacts Keyed KeyedFacts Rules SpecModel.

(** Induction on values that reaches inside arrays and objects. *)
Lemma value_deep_ind (P : value -> Prop) :
  P VUndefined -> P VNull ->
  (forall b, P (VBool b)) -> (forall n, P (VNum n)) ->
  (forall s, P (VStr s)) -> (forall l, P (VFun l)) ->
  (forall items, Forall P items -> P (VArr items)) ->
  (forall props, Forall (fun p => P (snd p)) props -> P (VObj props)) ->
  forall v, P v.
Proof.
  intros Hu Hn Hb Hz Hs Hf Ha Ho.
  fix rec 1. intros [| |b|n|s|l|items|props].
  - exact Hu.
  - exact Hn.
  - apply Hb.
  - apply Hz.
  - apply Hs.
  - apply Hf.
  - apply Ha. induction items as [|x items IH]; constructor; [apply rec|exact IH].
  - apply Ho. induction props as [|[k x] props IH]; constructor; [apply rec|exact IH].
Qed.

Lemma lookup_In (o : BaseObject) (k : string) (x : value) :
  NoDup (keys o) -> In (k, x) o -> lookup k o = Some x.
Proof.
  unfold keys. induction o as [|[k' x'] o IH]; simpl; intros D I; [contradiction|].
  inversion D as [|? ? HN HD]; subst.
  destruct I as [E|I].
  - injection E as -> ->. now rewrite String.eqb_refl.
  - destruct (k =? k') eqn:E.
    + apply String.eqb_eq in E. subst k'. elim HN.
      change k with (fst (k, x)). now apply in_map.
    + now apply IH.
Qed.

Section Mergers.

Variable newerRange : string -> string -> bool.

(** *** The dependency merger *)

Lemma mergeDep_update (acc : BaseObject) (entry : string * value) :
  mergeDep newerRange acc entry = update (depRule newerRange (snd entry)) (fst entry) acc.
Proof.
  destruct entry as [name incoming]. unfold mergeDep, update, depRule. simpl.
  destruct (lookup name acc) as [[| | | |e| | |]|]; try reflexivity.
  destruct incoming; try reflexivity.
  now destruct (newerRange s e).
Qed.

Lemma mergeDeps_updates (vs : BaseObject) :
  forall os, fold_left (mergeDep newerRange) vs os = updates (depRules newerRange vs) os.
Proof.
  unfold updates, depRules. induction vs as [|p vs IH]; simpl; intros os; [reflexivity|].
  now rewrite IH, mergeDep_update.
Qed.

Lemma depRules_keys (vs : BaseObject) : map fst (depRules newerRange vs) = keys vs.
Proof. unfold depRules, keys. rewrite map_map. reflexivity. Qed.

Lemma depRules_In (vs : BaseObject) (k : string) (g : rule) :
  In (k, g) (depRules newerRange vs) ->
  exists x, In (k, x) vs /\ g = depRule newerRange x.
Proof.
  unfold depRules. rewrite in_map_iff. intros [[k' x] [E I]]. simpl in E.
  injection E as <- <-. now exists x.
Qed.

Lemma depRule_settled (incoming : value) : settled (depRule newerRange incoming).
Proof.
  intros o y H.
  assert (y = incoming) as ->.
  { unfold depRule in H. destruct o as [[| | | |e| | |]|]; try discriminate;
      [destruct incoming; try discriminate;
       destruct (newerRange s e); [congruence|discriminate]|congruence]. }
  unfold depRule. destruct incoming; auto.
  destruct (newerRange s s); auto.
Qed.

Lemma depRule_atRest (incoming : value) :
  atRest (depRule newerRange incoming) (Some incoming).
Proof.
  unfold atRest, depRule. destruct incoming; auto.
  destruct (newerRange s s); auto.
Qed.

(** Merging a map with itself yields the same map. *)
Lemma mergeDependencies_self (v : value) :
  wf v = true -> mergeDependencies newerRange v v = v.
Proof.
  destruct v as [| | | | | | |vs]; try reflexivity.
  simpl. rewrite andb_true_iff, distinct_NoDup. intros [D _].
  rewrite mergeDeps_updates. f_equal. apply updates_fixed.
  intros k g I. apply depRules_In in I. destruct I as [x [I ->]].
  rewrite (lookup_In vs k x D I). apply depRule_atRest.
Qed.

(** Merging the same map in a second time changes nothing. *)
Lemma mergeDependencies_absorb (o v : value) :
  wf v = true ->
  mergeDependencies newerRange (mergeDependencies newerRange o v) v =
  mergeDependencies newerRange o v.
Proof.
  intros W. destruct o as [| | | | | | |os]; try reflexivity.
  destruct v as [| | | | | | |vs]; try reflexivity.
  simpl in *. apply andb_true_iff in W. destruct W as [D _].
  apply distinct_NoDup in D.
  rewrite !mergeDeps_updates. f_equal. apply updates_idempotent.
  - now rewrite depRules_keys.
  - intros k g I. apply depRules_In in I. destruct I as [x [_ ->]].
    apply depRule_settled.
Qed.

Lemma mergeDependencies_truthy (o v : value) :
  truthy o = true -> truthy (mergeDependencies newerRange o v) = true.
Proof.
  destruct o; simpl; auto. destruct v; auto.
Qed.

Lemma mergeDependencies_notNullish (o v : value) :
  isNullish o = false -> isNullish (mergeDependencies newerRange o v) = false.
Proof.
  destruct o; simpl; auto. destruct v; auto.
Qed.

(** *** The deep merge *)

Lemma mergeEntry_update (rec : value -> value -> value)
  (acc : BaseObject) (entry : string * value) :
  mergeEntry newerRange rec acc entry =
  update (entryRule newerRange rec (fst entry) (snd entry)) (fst entry) acc.
Proof.
  destruct entry as [k x]. unfold mergeEntry, update, entryRule. simpl.
  destruct (isNullish x); [reflexivity|].
  destruct (lookup k acc) as [e|]; [|reflexivity].
  destruct (isNullish e); [reflexivity|].
  now destruct (PackageManager.isDependenciesKey k && isMapping x).
Qed.

Lemma mergeEntries_updates (rec : value -> value -> value) (fs : BaseObject) :
  forall os,
    fold_left (mergeEntry newerRange rec) fs os =
    updates (entryRules newerRange rec fs) os.
Proof.
  unfold updates, entryRules. induction fs as [|p fs IH]; simpl; intros os; [reflexivity|].
  now rewrite IH, mergeEntry_update.
Qed.

Lemma webpackMerge_mappings (os fs : BaseObject) :
  webpackMerge newerRange (VObj os) (VObj fs) =
  VObj (updates (entryRules newerRange (webpackMerge newerRange) fs) os).
Proof. simpl. now rewrite mergeEntries_updates. Qed.

Lemma entryRules_keys (rec : value -> value -> value) (fs : BaseObject) :
  map fst (entryRules newerRange rec fs) = keys fs.
Proof. unfold entryRules, keys. rewrite map_map. reflexivity. Qed.

Lemma entryRules_In (rec : value -> value -> value) (fs : BaseObject)
  (k : string) (g : rule) :
  In (k, g) (entryRules newerRange rec fs) ->
  exists x, In (k, x) fs /\ g = entryRule newerRange rec k x.
Proof.
  unfold entryRules. rewrite in_map_iff. intros [[k' x] [E I]]. simpl in E.
  injection E as <- <-. now exists x.
Qed.

Lemma webpackMerge_notNullish (e x : value) :
  isNullish e = false -> isNullish x = false ->
  isNullish (webpackMerge newerRange e x) = false.
Proof.
  intros He Hx. destruct x; try discriminate; try reflexivity.
  destruct e; try discriminate; reflexivity.
Qed.

Lemma webpackMerge_truthy (old val : value) :
  truthy old = true ->
  truthy (webpackMerge newerRange old val) = true \/ webpackMerge newerRange old val = val.
Proof.
  intros Ho. destruct val; try (now right).
  left. destruct old; try discriminate; try assumption; reflexivity.
Qed.

Lemma entryRule_atRest (k : string) (x : value) :
  wf x = true -> selfMerge (webpackMerge newerRange) x ->
  atRest (entryRule newerRange (webpackMerge newerRange) k x) (Some x).
Proof.
  intros W S. unfold atRest, entryRule.
  destruct (isNullish x) eqn:Nx; [now left|]. right.
  destruct (PackageManager.isDependenciesKey k && isMapping x).
  - now rewrite mergeDependencies_self.
  - now rewrite S.
Qed.

Lemma entryRule_settled (k : string) (x : value) :
  wf x = true ->
  selfMerge (webpackMerge newerRange) x -> absorbed (webpackMerge newerRange) x ->
  settled (entryRule newerRange (webpackMerge newerRange) k x).
Proof.
  intros W S A o y H.
  assert (R : isNullish x = false).
  { unfold entryRule in H. destruct (isNullish x); [discriminate|reflexivity]. }
  assert (X : forall e, isNullish e = true \/ o = None -> y = x ->
              entryRule newerRange (webpackMerge newerRange) k x (Some y) = Some y).
  { intros e _ ->. destruct (entryRule_atRest k x W S) as [F|F]; [|exact F].
    unfold entryRule in F. rewrite R in F.
    destruct (PackageManager.isDependenciesKey k && isMapping x); discriminate. }
  unfold entryRule in H. rewrite R in H.
  destruct o as [e|]; [|right; apply (X VNull); [now right|congruence]].
  destruct (isNullish e) eqn:Ne; [right; apply (X e); [now left|congruence]|].
  right. unfold entryRule. rewrite R.
  destruct (PackageManager.isDependenciesKey k && isMapping x); injection H as <-.
  - rewrite mergeDependencies_notNullish by assumption.
    now rewrite mergeDependencies_absorb.
  - rewrite webpackMerge_notNullish by assumption.
    now rewrite A.
Qed.

(** Merging a well-formed value into itself gives it back, and merging it in
    a second time changes nothing. *)
Lemma webpackMerge_laws (v : value) :
  wf v = true ->
  selfMerge (webpackMerge newerRange) v /\ absorbed (webpackMerge newerRange) v.
Proof.
  induction v as [| |b|n|s|l|items _|fs IH] using value_deep_ind;
    intros W; try (split; [reflexivity|intros o; reflexivity]).
  simpl in W. apply andb_true_iff in W. destruct W as [D W].
  apply distinct_NoDup in D. rewrite forallb_forall in W. rewrite Forall_forall in IH.
  assert (L : forall k x, In (k, x) fs ->
                wf x = true /\ selfMerge (webpackMerge newerRange) x
                /\ absorbed (webpackMerge newerRange) x).
  { intros k x I. pose proof (W _ I) as Wx. pose proof (IH _ I Wx) as [S A].
    simpl in Wx. auto. }
  split.
  - unfold selfMerge. rewrite webpackMerge_mappings. f_equal.
    apply updates_fixed. intros k g I.
    apply entryRules_In in I. destruct I as [x [I ->]].
    rewrite (lookup_In fs k x D I).
    destruct (L k x I) as [Wx [S _]]. now apply entryRule_atRest.
  - intros [| | | | | | |os]; try reflexivity.
    rewrite !webpackMerge_mappings. f_equal.
    apply updates_idempotent.
    + now rewrite entryRules_keys.
    + intros k g I. apply entryRules_In in I. destruct I as [x [I ->]].
      destruct (L k x I) as [Wx [S A]]. now apply entryRule_settled.
Qed.

Lemma wf_get (data : BaseObject) (key : string) :
  wfObject data = true -> wf (get data key) = true.
Proof.
  unfold wfObject, get. simpl. rewrite andb_true_iff. intros [_ W].
  induction data as [|[k x] data IH]; simpl in *; [reflexivity|].
  apply andb_true_iff in W. destruct W as [Wx W].
  destruct (key =? k); [exact Wx|now apply IH].
Qed.

(** The modelled helpers obey the laws of the merge loop at every well-formed
    value. *)
Lemma mergeLaws_model (val : value) :
  wf val = true ->
  mergeLaws (mergeDependencies newerRange) (webpackMerge newerRange) val.
Proof.
  intros W. destruct (webpackMerge_laws val W) as [S A].
  repeat split; try assumption.
  - now apply mergeDependencies_self.
  - intros o. now apply mergeDependencies_absorb.
  - left. now apply mergeDependencies_truthy.
  - now apply webpackMerge_truthy.
Qed.

End Mergers.

End SpecModelFacts.

Module MergeClaims.
Import JS JSFacts Keyed KeyedFacts Rules PackageManager.
Import PackageManagerFacts SpecModelFacts.

Section Claims.

Variable newerRange : string -> string -> bool.

(** C1. Merging a fragment into a target twice yields the same manager as
    merging it once: for every stored configuration, every fragment (an
    object, so with no key twice at any depth) and every options record,
    [merge: true] and the defaults included.  The two helpers are the ones
    modelled from the design document. *)
Theorem mergeIntoCurrent_idempotent (this : t) (data : BaseObject)
  (options : option BaseObject) :
  wfObject data = true ->
  mergeIntoCurrent (SpecModel.mergeDependencies newerRange)
                   (SpecModel.webpackMerge newerRange)
    (mergeIntoCurrent (SpecModel.mergeDependencies newerRange)
                      (SpecModel.webpackMerge newerRange) this data options)
    data options =
  mergeIntoCurrent (SpecModel.mergeDependencies newerRange)
                   (SpecModel.webpackMerge newerRange) this data options.
Proof.
  intros W. apply mergeIntoCurrent_twice.
  - unfold wfObject in W. simpl in W. now apply andb_true_iff in W.
  - intros key. apply mergeLaws_model. now apply wf_get.
Qed.

Lemma get_set_same (k : string) (v : value) (o : BaseObject) : get (set k v o) k = v.
Proof. unfold get. now rewrite lookup_set_same. Qed.

(** Merging [{dependencies: vs}] with the default options: the stored
    dependencies go through the dependency merger when there are some, and
    the incoming mapping is written as it is when there are none. *)
Lemma mergeIntoCurrent_dependencies (this : t) (vs : BaseObject) :
  packageConfig
    (mergeIntoCurrent (SpecModel.mergeDependencies newerRange)
                      (SpecModel.webpackMerge newerRange)
       this [("dependencies", VObj vs)] None) =
  set "dependencies"
      (if truthy (get (packageConfig this) "dependencies")
       then SpecModel.mergeDependencies newerRange
              (get (packageConfig this) "dependencies") (VObj vs)
       else VObj vs)
      (packageConfig this).
Proof.
  unfold mergeIntoCurrent. simpl. unfold mergeKey. simpl.
  unfold falsy. change (get [("dependencies", VObj vs)] "dependencies") with (VObj vs).
  now destruct (truthy (get (packageConfig this) "dependencies")).
Qed.

(** The version of a package after it was merged in twice, first at range [e]
    and then at range [r], into a configuration that had none: the later
    range when it is newer, the earlier one otherwise. *)
Lemma mergeIntoCurrent_dependency_policy (this : t) (name e r : string) :
  Concrete.noDependency (packageConfig this) name = true ->
  Concrete.dependencyOf
    (packageConfig
       (mergeIntoCurrent (SpecModel.mergeDependencies newerRange)
                         (SpecModel.webpackMerge newerRange)
          (mergeIntoCurrent (SpecModel.mergeDependencies newerRange)
                            (SpecModel.webpackMerge newerRange)
             this (Concrete.dependency name e) None)
          (Concrete.dependency name r) None)) name =
  VStr (if newerRange r e then r else e).
Proof.
  intros N. unfold Concrete.dependency, Concrete.dependencyOf.
  rewrite !mergeIntoCurrent_dependencies, !get_set_same.
  unfold Concrete.noDependency in N.
  assert (F : exists deps,
            (if truthy (get (packageConfig this) "dependencies")
             then SpecModel.mergeDependencies newerRange
                    (get (packageConfig this) "dependencies") (VObj [(name, VStr e)])
             else VObj [(name, VStr e)]) = VObj deps /\
            lookup name deps = Some (VStr e)).
  { assert (E : lookup name [(name, VStr e)] = Some (VStr e)).
    { simpl. now rewrite String.eqb_refl. }
    destruct (get (packageConfig this) "dependencies") as [| |b|n|s|l|items|deps];
      simpl in N |- *; try discriminate;
      try (apply negb_true_iff in N; rewrite N);
      try (now exists [(name, VStr e)]).
    exists (set name (VStr e) deps). unfold hasOwnProperty in N.
    destruct (lookup name deps); [discriminate|]. split; [reflexivity|].
    apply lookup_set_same. }
  destruct F as [deps [-> L]]. simpl. rewrite L.
  unfold getPropOpt, getProp, get.
  destruct (newerRange r e); [now rewrite lookup_set_same|now rewrite L].
Qed.

(** C2. After [mergeIntoCurrent({dependencies: {react: "^17.0.0"}})] and then
    [mergeIntoCurrent({dependencies: {react: "^16.0.0"}})], both with the
    default options, on a configuration that had no version of react,
    [dependencies.react] is "^17.0.0": the incoming older range does not win.
    In general the version stored first is kept unless the incoming one is
    newer.  The dependency merger is the one modelled from the design
    document, over any semver test that does not rank ^16.0.0 above
    ^17.0.0. *)
Theorem mergeIntoCurrent_react_scenario (this : t) :
  Concrete.noDependency (packageConfig this) "react" = true ->
  newerRange "^16.0.0" "^17.0.0" = false ->
  Concrete.dependencyOf
    (packageConfig
       (mergeIntoCurrent (SpecModel.mergeDependencies newerRange)
                         (SpecModel.webpackMerge newerRange)
          (mergeIntoCurrent (SpecModel.mergeDependencies newerRange)
                            (SpecModel.webpackMerge newerRange)
             this (Concrete.dependency "react" "^17.0.0") None)
          (Concrete.dependency "react" "^16.0.0") None)) "react" =
  VStr "^17.0.0"
  /\ forall existing incoming,
       Concrete.dependencyOf
         (packageConfig
            (mergeIntoCurrent (SpecModel.mergeDependencies newerRange)
                              (SpecModel.webpackMerge newerRange)
               (mergeIntoCurrent (SpecModel.mergeDependencies newerRange)
                                 (SpecModel.webpackMerge newerRange)
                  this (Concrete.dependency "react" existing) None)
               (Concrete.dependency "react" incoming) None)) "react" =
       VStr (if newerRange incoming existing then incoming else existing).
Proof.
  intros N O. split.
  - rewrite mergeIntoCurrent_dependency_policy by exact N. now rewrite O.
  - intros existing incoming. now apply mergeIntoCurrent_dependency_policy.
Qed.

End Claims.

Lemma mergeIntoCurrent_react_scenario_witness :
  let T := Concrete.manager [("name", VStr "app"); ("version", VStr "1.0.0")] in
  Concrete.noDependency (packageConfig T) "react" = true /\
  SpecModel.semverNewer "^16.0.0" "^17.0.0" = false /\
  Concrete.dependencyOf
    (packageConfig
       (Concrete.mergeIntoCurrent
          (Concrete.mergeIntoCurrent T (Concrete.dependency "react" "^17.0.0") None)
          (Concrete.dependency "react" "^16.0.0") None)) "react" =
  VStr "^17.0.0".
Proof.
  split; [reflexivity|]. split; [reflexivity|].
  apply (proj1 (mergeIntoCurrent_react_scenario SpecModel.semverNewer
                  (Concrete.manager [("name", VStr "app"); ("version", VStr "1.0.0")])
                  eq_refl eq_refl)).
Defined.

Lemma mergeIntoCurrent_idempotent_witness :
  let F := [("dependencies", VObj [("react", VStr "^16.0.0")]);
            ("eslintConfig", VObj [("extends", VArr [VStr "react-app"])]);
            ("private", VBool true)] in
  let T := Concrete.manager
             [("name", VStr "app");
              ("dependencies", VObj [("react", VStr "^17.0.0")])] in
  wfObject F = true /\
  Concrete.mergeIntoCurrent (Concrete.mergeIntoCurrent T F None) F None =
  Concrete.mergeIntoCurrent T F None.
Proof.
  split; [reflexivity|].
  apply (mergeIntoCurrent_idempotent SpecModel.semverNewer). reflexivity.
Defined.

End MergeClaims.

Module PruneFacts.
Import JS JSFacts PackageManager.
Local Open Scope list_scope.

Lemma lookup_app_absent (k : string) (a b : BaseObject) :
  ~ In k (keys a) -> lookup k (a ++ b) = lookup k b.
Proof.
  unfold keys. induction a as [|[k' v'] a IH]; simpl; intros N; [reflexivity|].
  destruct (k =? k') eqn:E.
  - apply String.eqb_eq in E. subst. tauto.
  - apply IH. tauto.
Qed.

Lemma delete_app_absent (k : string) (a b : BaseObject) :
  ~ In k (keys a) -> delete k (a ++ b) = a ++ delete k b.
Proof.
  unfold keys. induction a as [|[k' v'] a IH]; simpl; intros N; [reflexivity|].
  destruct (k =? k') eqn:E.
  - apply String.eqb_eq in E. subst. tauto.
  - rewrite IH; tauto.
Qed.

(** The pruning loop, started after the entries [seen] have been visited and
    kept. *)
Lemma pruneLoop_filter (rest : BaseObject) :
  forall seen,
    NoDup (keys (seen ++ rest)) ->
    fold_left pruneKey (keys rest) (seen ++ rest) =
    seen ++ filter (fun p => negb (isEmptyObject (snd p))) rest.
Proof.
  induction rest as [|[k v] rest IH]; intros seen D; [reflexivity|].
  assert (N : ~ In k (keys seen)).
  { unfold keys in *. rewrite map_app in D. simpl in D.
    apply NoDup_remove_2 in D. intros I. apply D. apply in_or_app. now left. }
  simpl. unfold pruneKey at 2. unfold hasOwnProperty, get.
  rewrite (lookup_app_absent k seen _ N). simpl. rewrite String.eqb_refl.
  destruct (isEmptyObject v) eqn:E; simpl.
  - rewrite (delete_app_absent k seen _ N). simpl. rewrite String.eqb_refl.
    apply IH. unfold keys in *. rewrite map_app in *. simpl in D.
    now apply NoDup_remove_1 in D.
  - change (seen ++ (k, v) :: rest) with (seen ++ [(k, v)] ++ rest) in *.
    rewrite app_assoc in *. rewrite (IH _ D). now rewrite <- app_assoc.
Qed.

(** On an object, the pruning loop keeps exactly the entries whose value is
    not an empty object. *)
Lemma prune_filter (config : BaseObject) :
  distinct (keys config) = true ->
  fold_left pruneKey (keys config) config =
  filter (fun p => negb (isEmptyObject (snd p))) config.
Proof.
  intros D. apply distinct_NoDup in D. exact (pruneLoop_filter config [] D).
Qed.

Section Sorted.

Variable sortPackageJson : BaseObject -> BaseObject.

(** C5, as the code has it. The object [getPackageConfig] returns has no
    top-level entry whose value is an empty object (an empty mapping, or an
    empty array, which the same test catches), whenever the sorter only
    rearranges the entries it is given.  Nothing is said of mappings nested
    deeper, which the loop does not visit. *)
Theorem getPackageConfig_no_empty_entry (this : t) (key : string) (val : value) :
  (forall o p, In p (sortPackageJson o) -> In p o) ->
  distinct (keys (packageConfig this)) = true ->
  In (key, val) (snd (getPackageConfig sortPackageJson this)) ->
  isEmptyObject val = false.
Proof.
  intros S D I. unfold getPackageConfig in I. simpl in I.
  apply S in I. rewrite (prune_filter _ D) in I.
  apply filter_In in I. destruct I as [_ I]. simpl in I.
  now apply negb_true_iff in I.
Qed.

(** C6, as the code has it. [getPackageConfig] changes the manager in one way
    only: the stored configuration loses its top-level entries whose value is
    an empty object; the other entries, their order, the base path and the
    manager name stay; a configuration with no such entry is left as it is. *)
Theorem getPackageConfig_state (this : t) :
  distinct (keys (packageConfig this)) = true ->
  fst (getPackageConfig sortPackageJson this) =
  withPackageConfig this
    (filter (fun p => negb (isEmptyObject (snd p))) (packageConfig this))
  /\ ((forall p, In p (packageConfig this) -> isEmptyObject (snd p) = false) ->
      fst (getPackageConfig sortPackageJson this) = this).
Proof.
  intros D. unfold getPackageConfig. simpl. rewrite (prune_filter _ D).
  split; [reflexivity|]. intros H.
  destruct this as [b m c]. unfold withPackageConfig. simpl in *. f_equal.
  clear D. induction c as [|p c IH]; simpl; [reflexivity|].
  rewrite (H p) by now left. simpl. f_equal. apply IH.
  intros q I. apply H. now right.
Qed.

End Sorted.

Lemma insertByKey_In (p q : string * value) (o : BaseObject) :
  In q (SpecModel.insertByKey p o) -> q = p \/ In q o.
Proof.
  induction o as [|r o IH]; simpl.
  - intros [H|[]]. now left.
  - destruct (String.leb (fst p) (fst r)); simpl.
    + intros [H|H]; [now left; symmetry|now right].
    + intros [H|H]; [right; now left|].
      destruct (IH H); [now left|right; now right].
Qed.

(** The modelled sorter only rearranges the entries it is given. *)
Lemma sortPackageJson_In (o : BaseObject) (p : string * value) :
  In p (SpecModel.sortPackageJson o) -> In p o.
Proof.
  unfold SpecModel.sortPackageJson. induction o as [|q o IH]; simpl; [tauto|].
  intros H. apply insertByKey_In in H. destruct H as [->|H]; [now left|].
  right. now apply IH.
Qed.

Lemma getPackageConfig_no_empty_entry_witness :
  let T := Concrete.manager
             [("name", VStr "app"); ("scripts", VObj []); ("files", VArr []);
              ("dependencies", VObj [("react", VStr "^17.0.0")])] in
  distinct (keys (packageConfig T)) = true /\
  In ("dependencies", VObj [("react", VStr "^17.0.0")])
     (snd (Concrete.getPackageConfig T)) /\
  isEmptyObject (VObj [("react", VStr "^17.0.0")]) = false.
Proof.
  split; [reflexivity|]. split; [simpl; tauto|].
  apply (getPackageConfig_no_empty_entry SpecModel.sortPackageJson
           (Concrete.manager
              [("name", VStr "app"); ("scripts", VObj []); ("files", VArr []);
               ("dependencies", VObj [("react", VStr "^17.0.0")])])
           "dependencies").
  - exact sortPackageJson_In.
  - reflexivity.
  - simpl. tauto.
Defined.

(** C5, where the claim fails: an empty mapping one level down is returned as
    it is. *)
Lemma getPackageConfig_keeps_nested_empty :
  snd (Concrete.getPackageConfig
         (Concrete.manager [("eslintConfig", VObj [("rules", VObj [])])])) =
  [("eslintConfig", VObj [("rules", VObj [])])]
  /\ isEmptyObject
       (getPropOpt
          (get (snd (Concrete.getPackageConfig
                       (Concrete.manager [("eslintConfig", VObj [("rules", VObj [])])])))
               "eslintConfig")
          "rules") = true.
Proof. split; reflexivity. Qed.

Lemma getPackageConfig_state_witness :
  let T := Concrete.manager [("name", VStr "app"); ("scripts", VObj [])] in
  distinct (keys (packageConfig T)) = true /\
  fst (Concrete.getPackageConfig T) = Concrete.manager [("name", VStr "app")].
Proof.
  split; [reflexivity|].
  exact (proj1 (getPackageConfig_state SpecModel.sortPackageJson
                  (Concrete.manager [("name", VStr "app"); ("scripts", VObj [])])
                  eq_refl)).
Defined.

(** C6, where the claim fails: the call removes a key from the stored
    configuration. *)
Lemma getPackageConfig_changes_state :
  packageConfig
    (fst (Concrete.getPackageConfig
            (Concrete.manager [("name", VStr "app"); ("scripts", VObj [])]))) =
  [("name", VStr "app")]
  /\ fst (Concrete.getPackageConfig
            (Concrete.manager [("name", VStr "app"); ("scripts", VObj [])])) <>
     Concrete.manager [("name", VStr "app"); ("scripts", VObj [])].
Proof. split; [reflexivity|discriminate]. Qed.

End PruneFacts.

Module ConstructionFacts.
Import JS PackageManager.

Section Disk.

Variable PACKAGE_JSON_BASE : BaseObject.
Variable resolveModule : string -> option BaseObject.
Variable path_resolve : string -> string -> string.
Variable existsSync : string -> bool.

(** C8, as the code has it. The two ways of building a manager differ.
    [createWithResolve], which takes no skeleton, throws the
    package.json-not-found error when the package.json of the base directory
    cannot be loaded, and holds the loaded document when it can.
    [createWithOptions] (the constructor) does not read package.json at all
    and always returns a manager: it holds the caller's [packageConfig] when
    one is supplied and the built-in skeleton when none is. *)
Theorem construction_outcomes :
  (forall dir,
     resolveModule (path_resolve dir "package.json") = None ->
     createWithResolve PACKAGE_JSON_BASE resolveModule path_resolve existsSync dir =
     Throws ConfigNotFound)
  /\ (forall dir c,
        resolveModule (path_resolve dir "package.json") = Some c ->
        exists manager,
          createWithResolve PACKAGE_JSON_BASE resolveModule path_resolve existsSync dir =
          Returns manager /\ packageConfig manager = c)
  /\ (forall options c,
        opt_packageConfig options = Some c ->
        packageConfig
          (createWithOptions PACKAGE_JSON_BASE path_resolve existsSync options) = c)
  /\ (forall options,
        opt_packageConfig options = None ->
        packageConfig
          (createWithOptions PACKAGE_JSON_BASE path_resolve existsSync options) =
        PACKAGE_JSON_BASE).
Proof.
  repeat split.
  - intros dir H. unfold createWithResolve, resolvePackageConfig. simpl. now rewrite H.
  - intros dir c H. unfold createWithResolve, resolvePackageConfig. simpl. rewrite H.
    eexists. split; reflexivity.
  - intros options c H. unfold createWithOptions, constructor. simpl. now rewrite H.
  - intros options H. unfold createWithOptions, constructor. simpl. now rewrite H.
Qed.

End Disk.

Lemma construction_outcomes_witness :
  Concrete.nothingResolves (Concrete.path_resolve "/nowhere" "package.json") = None /\
  createWithResolve Concrete.skeleton Concrete.nothingResolves Concrete.path_resolve
    Concrete.nothingExists "/nowhere" = Throws ConfigNotFound /\
  createWithResolve Concrete.skeleton Concrete.appResolves Concrete.path_resolve
    Concrete.nothingExists "/app" = Returns (Concrete.manager [("name", VStr "app")]) /\
  packageConfig
    (createWithOptions Concrete.skeleton Concrete.path_resolve Concrete.nothingExists
       {| opt_basePath := "/nowhere"; opt_managerName := None;
          opt_packageConfig := Some [("name", VStr "mine")] |}) =
  [("name", VStr "mine")].
Proof.
  split; [reflexivity|]. split; [|split; [reflexivity|]].
  - apply (proj1 (construction_outcomes Concrete.skeleton Concrete.nothingResolves
                    Concrete.path_resolve Concrete.nothingExists)).
    reflexivity.
  - apply (proj1 (proj2 (proj2
             (construction_outcomes Concrete.skeleton Concrete.nothingResolves
                Concrete.path_resolve Concrete.nothingExists)))).
    reflexivity.
Defined.

(** C8, where the claim fails: no package.json can be read, no skeleton is
    supplied, and the constructor returns a manager holding the built-in
    skeleton. *)
Lemma constructor_without_skeleton_succeeds :
  Concrete.nothingResolves (Concrete.path_resolve "/nowhere" "package.json") = None /\
  createWithOptions Concrete.skeleton Concrete.path_resolve Concrete.nothingExists
    {| opt_basePath := "/nowhere"; opt_managerName := None; opt_packageConfig := None |} =
  {| basePath := "/nowhere"; managerName := npm; packageConfig := Concrete.skeleton |}.
Proof. split; reflexivity. Qed.

End ConstructionFacts.

Module CoreManagerFacts.
Import CoreManager.

(** C7. [validateCreateCommand] is a function of its argument record alone:
    a project type that is a non-empty string validates, with a null message;
    an absent or empty one does not, with the one fixed message. *)
Theorem validateCreateCommand_outcomes (args : CreateOptions) :
  (forall s, type args = Some s -> s <> "" ->
     validateCreateCommand args = {| validated := true; message := None |})
  /\ (type args = None \/ type args = Some "" ->
      validateCreateCommand args =
      {| validated := false; message := Some EMPTY_TYPE_MESSAGE |}).
Proof.
  unfold validateCreateCommand. split.
  - intros s -> N. apply String.eqb_neq in N. now rewrite N.
  - intros [->| ->]; reflexivity.
Qed.

Lemma validateCreateCommand_outcomes_witness :
  validateCreateCommand {| type := Some "react" |} =
  {| validated := true; message := None |}
  /\ validateCreateCommand {| type := None |} =
     {| validated := false;
        message := Some "service 类型为空，请选择一个正确的项目类型，例如 'react'" |}.
Proof.
  split.
  - apply (proj1 (validateCreateCommand_outcomes {| type := Some "react" |}) "react");
      [reflexivity|discriminate].
  - apply (proj2 (validateCreateCommand_outcomes {| type := None |})).
    now left.
Defined.

End CoreManagerFacts.

Module ReactServiceFacts.
Import JS ReactService.

Section Service.

Variable webpackMerge : value -> list value -> value.
Variable DEFAULT_WEBPACK_DEV_SERVER_HOST : value.
Variable DEFAULT_WEBPACK_DEV_SERVER_PORT : value.
Variable String_ : value -> string.

Lemma runRuntimePlugins_completes (pluginModules : list PluginModule) :
  forallb (fun p => negb (runtimeThrows p)) pluginModules = true ->
  forall this, snd (runRuntimePlugins webpackMerge pluginModules this) = Normal.
Proof.
  induction pluginModules as [|p ps IH]; simpl; intros H this; [reflexivity|].
  apply andb_true_iff in H. destruct H as [Hp Hps].
  apply negb_true_iff in Hp. rewrite Hp. now apply IH.
Qed.

(** Whatever [start] hands to [server.listen] was computed from the
    application configuration and the defaults alone. *)
Lemma start_listened (this : t) (port host : value) :
  listened (trace (start webpackMerge DEFAULT_WEBPACK_DEV_SERVER_HOST
                         DEFAULT_WEBPACK_DEV_SERVER_PORT String_ this)) =
  Some (port, host) ->
  port = orElse (getPropOpt (getPropOpt (getAppConfig (appManager this)) "additional")
                            "webpackDevServerPort")
                DEFAULT_WEBPACK_DEV_SERVER_PORT /\
  host = orElse (getPropOpt (getPropOpt (getAppConfig (appManager this)) "additional")
                            "webpackDevServerHost")
                DEFAULT_WEBPACK_DEV_SERVER_HOST.
Proof.
  unfold start, trace.
  destruct (runRuntimePlugins webpackMerge (getPluginModules (appManager this)) this)
    as [this1 [|]]; [|discriminate].
  assert (E : getPropOpt (getAppConfig (appManager this)) "additional" =
              match getProp (getAppConfig (appManager this)) "additional" with
              | Some x => x
              | None => VUndefined
              end) by reflexivity.
  rewrite E. clear E.
  destruct (getProp (getAppConfig (appManager this)) "additional") as [additionalData|];
    simpl; [|discriminate].
  now intros [= <- <-].
Qed.

(** When no plugin throws and the application configuration is an object,
    [start] reaches [server.listen]. *)
Lemma start_listens (this : t) :
  forallb (fun p => negb (runtimeThrows p)) (getPluginModules (appManager this)) = true ->
  isNullish (getAppConfig (appManager this)) = false ->
  exists pair,
    listened (trace (start webpackMerge DEFAULT_WEBPACK_DEV_SERVER_HOST
                           DEFAULT_WEBPACK_DEV_SERVER_PORT String_ this)) = Some pair.
Proof.
  intros T N. unfold start, trace.
  pose proof (runRuntimePlugins_completes _ T this) as C.
  destruct (runRuntimePlugins webpackMerge (getPluginModules (appManager this)) this)
    as [this1 c]. simpl in C. subst c.
  destruct (getProp (getAppConfig (appManager this)) "additional") as [additionalData|] eqn:A.
  - simpl. eexists. reflexivity.
  - destruct (getAppConfig (appManager this)); discriminate.
Qed.

(** When [start] gets as far as [server.listen], the pair it hands over is
    read from the user's application configuration ([additional.webpackDevServerPort] and
    [additional.webpackDevServerHost]) where that holds a value (a truthy one:
    a port other than 0, a host other than the empty string), and is the
    built-in default otherwise.  The plugins, whatever configurations they
    pass to [mergeWebpackConfig], the merged webpack configuration and the
    dev-server options have no part in it: two services with the same
    application configuration listen on the same pair.  When no plugin throws
    and the application configuration is not undefined or null, the server
    does listen. *)
Theorem start_listens_on_user_config (this : t) :
  let appConfig := getAppConfig (appManager this) in
  let userPort := getPropOpt (getPropOpt appConfig "additional") "webpackDevServerPort" in
  let userHost := getPropOpt (getPropOpt appConfig "additional") "webpackDevServerHost" in
  let run := start webpackMerge DEFAULT_WEBPACK_DEV_SERVER_HOST
                   DEFAULT_WEBPACK_DEV_SERVER_PORT String_ in
  (forall port host,
     listened (trace (run this)) = Some (port, host) ->
     port = (if truthy userPort then userPort else DEFAULT_WEBPACK_DEV_SERVER_PORT) /\
     host = (if truthy userHost then userHost else DEFAULT_WEBPACK_DEV_SERVER_HOST))
  /\ (forall that pair pair',
        getAppConfig (appManager that) = appConfig ->
        listened (trace (run this)) = Some pair ->
        listened (trace (run that)) = Some pair' ->
        pair = pair')
  /\ (forallb (fun p => negb (runtimeThrows p)) (getPluginModules (appManager this)) = true ->
      isNullish appConfig = false ->
      listened (trace (run this)) =
      Some (if truthy userPort then userPort else DEFAULT_WEBPACK_DEV_SERVER_PORT,
            if truthy userHost then userHost else DEFAULT_WEBPACK_DEV_SERVER_HOST)).
Proof.
  cbv zeta. split; [|split].
  - intros port host L. exact (start_listened this port host L).
  - intros that [port host] [port' host'] E L L'.
    apply start_listened in L. apply start_listened in L'. rewrite E in L'.
    destruct L as [-> ->]. destruct L' as [-> ->]. reflexivity.
  - intros T N. destruct (start_listens this T N) as [[port host] L].
    rewrite L. destruct (start_listened this port host L) as [-> ->]. reflexivity.
Qed.

End Service.

Lemma start_listens_on_user_config_witness :
  let appConfig := VObj [("additional", VObj [("webpackDevServerPort", VNum 8080)])] in
  forallb (fun p => negb (runtimeThrows p))
          (getPluginModules (appManager (Concrete.service appConfig))) = true /\
  isNullish appConfig = false /\
  listened (trace (Concrete.start (Concrete.service appConfig))) =
  Some (VNum 8080, VStr "0.0.0.0").
Proof.
  split; [reflexivity|]. split; [reflexivity|].
  apply (proj2 (proj2 (start_listens_on_user_config Concrete.mergeAll (VStr "0.0.0.0")
                  (VNum 9000) Concrete.String_
                  (Concrete.service
                     (VObj [("additional", VObj [("webpackDevServerPort", VNum 8080)])])))));
    reflexivity.
Defined.

(** C9, at the input where the code departs from it. With no application
    configuration ([getAppConfig()] is undefined or null) and no plugin at
    all, [start] does not fall back to the built-in host and port: it sets
    the environment variable, compiles, creates the dev server, and then
    throws on reading [appConfig.additional], so [server.listen] is never
    called.  This holds whatever the merge, the defaults, the webpack
    configuration and the dev-server configuration are. *)
Theorem start_without_configuration_never_listens
  (webpackMerge : value -> list value -> value)
  (DEFAULT_WEBPACK_DEV_SERVER_HOST DEFAULT_WEBPACK_DEV_SERVER_PORT : value)
  (String_ : value -> string) (devServer webpack : value) :
  let noConfiguration := fun appConfig =>
    start webpackMerge DEFAULT_WEBPACK_DEV_SERVER_HOST DEFAULT_WEBPACK_DEV_SERVER_PORT
          String_
          {| devServerConfig := devServer;
             appManager := {| getAppConfig := appConfig; getPluginModules := [] |};
             webpackConfig := webpack |} in
  snd (noConfiguration VUndefined) = Thrown /\
  listened (trace (noConfiguration VUndefined)) = None /\
  trace (noConfiguration VUndefined) =
  [SetEnv "DEV_SERVER_PORT" (String_ (getPropOpt (copyOf devServer) "port"));
   Webpack webpack; NewWebpackDevServer webpack (copyOf devServer)] /\
  snd (noConfiguration VNull) = Thrown /\
  listened (trace (noConfiguration VNull)) = None.
Proof. cbv zeta. repeat split. Qed.

End ReactServiceFacts.

Module MergeExamples.
Import JS PackageManager.

Lemma mergeIntoCurrent_keeps_keys_witness :
  let T := Concrete.manager [("name", VStr "app"); ("private", VBool true)] in
  let F := [("name", VStr "other"); ("license", VStr "MIT")] in
  hasOwnProperty (packageConfig T) "private" = true /\
  hasOwnProperty
    (packageConfig (Concrete.mergeIntoCurrent T F (Some [("merge", VBool false)])))
    "private" = true.
Proof.
  split; [reflexivity|].
  apply (PackageManagerFacts.mergeIntoCurrent_keeps_keys
           Concrete.mergeDependencies Concrete.webpackMerge).
  reflexivity.
Defined.

Lemma mergeIntoCurrent_both_present_witness :
  let T := Concrete.manager
             [("version", VStr "1.0.0"); ("files", VArr [VStr "bin"])] in
  let F := [("version", VStr "2.0.0"); ("files", VArr [VStr "lib"])] in
  distinct (keys F) = true /\
  hasOwnProperty F "version" = true /\ hasOwnProperty F "files" = true /\
  truthy (get (resultOptions None) "merge") = true /\
  isDependenciesKey "version" = false /\ isDependenciesKey "files" = false /\
  truthy (get (packageConfig T) "version") = true /\
  truthy (get (packageConfig T) "files") = true /\
  truthy (get F "version") = true /\ truthy (get F "files") = true /\
  get (packageConfig (Concrete.mergeIntoCurrent T F None)) "version" = VStr "1.0.0" /\
  get (packageConfig (Concrete.mergeIntoCurrent T F None)) "files" =
  Concrete.webpackMerge (VArr [VStr "bin"]) (VArr [VStr "lib"]).
Proof.
  do 10 (split; [reflexivity|]). split.
  - apply (PackageManagerFacts.mergeIntoCurrent_both_present
             Concrete.mergeDependencies Concrete.webpackMerge
             (Concrete.manager [("version", VStr "1.0.0"); ("files", VArr [VStr "bin"])])
             [("version", VStr "2.0.0"); ("files", VArr [VStr "lib"])] None "version");
      reflexivity.
  - apply (PackageManagerFacts.mergeIntoCurrent_both_present
             Concrete.mergeDependencies Concrete.webpackMerge
             (Concrete.manager [("version", VStr "1.0.0"); ("files", VArr [VStr "bin"])])
             [("version", VStr "2.0.0"); ("files", VArr [VStr "lib"])] None "files");
      reflexivity.
Defined.

(** C4, where the claim fails: both values are present scalars at a key that
    is not a dependency key, [merge] is on, and the incoming value is dropped
    instead of overwriting the stored one. *)
Lemma mergeIntoCurrent_scalar_not_overwritten :
  let T := Concrete.manager [("version", VStr "1.0.0")] in
  let F := [("version", VStr "2.0.0")] in
  truthy (get (packageConfig T) "version") = true /\
  truthy (get F "version") = true /\
  get (packageConfig (Concrete.mergeIntoCurrent T F None)) "version" = VStr "1.0.0" /\
  get (packageConfig (Concrete.mergeIntoCurrent T F None)) "version" <> get F "version".
Proof. repeat split; discriminate. Qed.

End MergeExamples.

(** * Further properties of the package manager *)

Module MergeExtras.
Import JS JSFacts Keyed KeyedFacts Rules PackageManager PackageManagerFacts.
Local Open Scope list_scope.

Lemma keys_set (k : string) (v : value) (o : BaseObject) :
  keys (set k v o) = if hasOwnProperty o k then keys o else keys o ++ [k].
Proof.
  unfold hasOwnProperty, keys. induction o as [|[k' v'] o IH]; simpl; [reflexivity|].
  destruct (k =? k') eqn:E; simpl; [reflexivity|].
  rewrite IH. now destruct (lookup k o).
Qed.

Lemma keys_update (g : rule) (k : string) (o : BaseObject) :
  keys (update g k o) = keys o \/
  (keys (update g k o) = keys o ++ [k] /\ ~ In k (keys o)).
Proof.
  unfold update. destruct (g (lookup k o)); [|now left].
  rewrite keys_set. destruct (hasOwnProperty o k) eqn:E; [now left|right].
  split; [reflexivity|]. rewrite <- hasOwnProperty_In. congruence.
Qed.

Lemma keys_updates_append (us : list (string * rule)) :
  forall o, exists added,
    keys (updates us o) = keys o ++ added /\
    forall k, In k added -> In k (map fst us) /\ ~ In k (keys o).
Proof.
  induction us as [|[k g] us IH]; intros o.
  - exists []. split; [now rewrite app_nil_r|intros k []].
  - change (updates ((k, g) :: us) o) with (updates us (update g k o)).
    destruct (IH (update g k o)) as [added [E A]].
    destruct (keys_update g k o) as [K|[K N]].
    + exists added. rewrite E, K. split; [reflexivity|].
      intros k' I. destruct (A k' I) as [I1 I2]. rewrite K in I2.
      split; [now right|assumption].
    + exists (k :: added). rewrite E, K, <- app_assoc. split; [reflexivity|].
      intros k' [<-|I]; [split; [now left|assumption]|].
      destruct (A k' I) as [I1 I2]. rewrite K in I2. split; [now right|].
      intros J. apply I2. apply in_or_app. now left.
Qed.

Lemma NoDup_keys_update (g : rule) (k : string) (o : BaseObject) :
  NoDup (keys o) -> NoDup (keys (update g k o)).
Proof.
  intros D. destruct (keys_update g k o) as [K|[K N]]; rewrite K; [assumption|].
  apply NoDup_app; [assumption|repeat constructor; intros []|].
  intros x I [<-|[]]. contradiction.
Qed.

Lemma NoDup_keys_updates (us : list (string * rule)) :
  forall o, NoDup (keys o) -> NoDup (keys (updates us o)).
Proof.
  unfold updates. induction us as [|[k g] us IH]; simpl; intros o D; [assumption|].
  apply IH. now apply NoDup_keys_update.
Qed.

Lemma fold_left_agree {A B : Type} (f g : A -> B -> A) (l : list B) :
  (forall x, In x l -> forall a, f a x = g a x) ->
  forall a, fold_left f l a = fold_left g l a.
Proof.
  induction l as [|x l IH]; simpl; intros H a; [reflexivity|].
  rewrite (H x) by now left. apply IH. intros y I. apply H. now right.
Qed.

Lemma lookup_app (k : string) (a b : BaseObject) :
  lookup k (a ++ b) = match lookup k a with Some v => Some v | None => lookup k b end.
Proof.
  induction a as [|[k' v'] a IH]; simpl; [reflexivity|].
  now destruct (k =? k').
Qed.

Lemma lookup_assign_keys (src : BaseObject) (k : string) (ks : list string) :
  forall target,
    lookup k (fold_left (fun t k' => set k' (get src k') t) ks target) =
    if existsb (String.eqb k) ks then Some (get src k) else lookup k target.
Proof.
  induction ks as [|k' ks IH]; simpl; intros target; [reflexivity|].
  rewrite IH. destruct (existsb (String.eqb k) ks); [now rewrite orb_true_r|].
  rewrite orb_false_r. destruct (k =? k') eqn:E.
  - apply String.eqb_eq in E. subst k'. apply lookup_set_same.
  - apply lookup_set_other. intros ->. now rewrite String.eqb_refl in E.
Qed.

Lemma existsb_keys (o : BaseObject) (k : string) :
  existsb (String.eqb k) (keys o) = hasOwnProperty o k.
Proof.
  unfold hasOwnProperty, keys. induction o as [|[k' v] o IH]; simpl; [reflexivity|].
  destruct (k =? k'); simpl; [reflexivity|exact IH].
Qed.

(** X10. The options of [mergeIntoCurrent]: an option the caller passes, be it
    as undefined, replaces the default; one the caller does not pass keeps
    it, and both defaults are true. *)
Theorem resultOptions_defaults (options : BaseObject) (key : string) :
  get (resultOptions (Some options)) key =
  if hasOwnProperty options key then get options key
  else if (key =? "merge") || (key =? "ignoreNullOrUndefined") then VBool true
       else VUndefined.
Proof.
  unfold resultOptions, assign, get at 1.
  rewrite lookup_assign_keys, existsb_keys.
  destruct (hasOwnProperty options key); [reflexivity|]. simpl.
  destruct (key =? "merge"); [reflexivity|].
  now destruct (key =? "ignoreNullOrUndefined").
Qed.

Section Merge.

Variable mergeDependencies : value -> value -> value.
Variable webpackMerge : value -> value -> value.

(** What the merge leaves at a key of the fragment, read as a value. *)
Lemma mergeIntoCurrent_get (this : t) (data : BaseObject)
  (options : option BaseObject) (key : string) :
  distinct (keys data) = true ->
  hasOwnProperty data key = true ->
  get (packageConfig (mergeIntoCurrent mergeDependencies webpackMerge this data options))
      key =
  match mergeRule mergeDependencies webpackMerge (resultOptions options) key
                  (get data key) (lookup key (packageConfig this)) with
  | Some y => y
  | None => get (packageConfig this) key
  end.
Proof.
  intros D I. unfold get at 1.
  rewrite (mergeIntoCurrent_lookup _ _ this data options key D I), lookup_update_same.
  now destruct (mergeRule _ _ _ _ _ _).
Qed.

(** X1. [mergeIntoCurrent] touches nothing but the keys of the fragment: a key
    the fragment does not have keeps its value (or stays absent), and the base
    path and the manager name stay. *)
Theorem mergeIntoCurrent_frame (this : t) (data : BaseObject)
  (options : option BaseObject) (key : string) :
  hasOwnProperty data key = false ->
  lookup key
    (packageConfig (mergeIntoCurrent mergeDependencies webpackMerge this data options)) =
  lookup key (packageConfig this)
  /\ basePath (mergeIntoCurrent mergeDependencies webpackMerge this data options) =
     basePath this
  /\ managerName (mergeIntoCurrent mergeDependencies webpackMerge this data options) =
     managerName this.
Proof.
  intros H. split; [|split; reflexivity].
  rewrite mergeIntoCurrent_updates. apply lookup_updates_other.
  rewrite mergeRules_keys, <- hasOwnProperty_In. congruence.
Qed.

(** X2. For a fragment none of whose keys is written in digits only (such
    keys the engine sorts to the front), [mergeIntoCurrent] only appends: the
    keys of the stored configuration stay where they were, in their order,
    and what comes after them are keys of the fragment that the configuration
    did not have. *)
Theorem mergeIntoCurrent_appends_keys (this : t) (data : BaseObject)
  (options : option BaseObject) :
  forallb (fun k => negb (KeyNames.integerLike k)) (keys data) = true ->
  exists added,
    keys (packageConfig
            (mergeIntoCurrent mergeDependencies webpackMerge this data options)) =
    keys (packageConfig this) ++ added /\
    forall k, In k added ->
      hasOwnProperty data k = true /\ hasOwnProperty (packageConfig this) k = false /\
      KeyNames.integerLike k = false.
Proof.
  intros G. rewrite mergeIntoCurrent_updates.
  destruct (keys_updates_append
              (mergeRules mergeDependencies webpackMerge (resultOptions options) data)
              (packageConfig this)) as [added [E A]].
  exists added. split; [exact E|]. intros k I. destruct (A k I) as [I1 I2].
  rewrite mergeRules_keys in I1. split; [now apply hasOwnProperty_In|]. split.
  - destruct (hasOwnProperty (packageConfig this) k) eqn:H; [|reflexivity].
    apply hasOwnProperty_In in H. contradiction.
  - rewrite forallb_forall in G. apply negb_true_iff. now apply G.
Qed.


(** X4. While [ignoreNullOrUndefined] is on, a fragment all of whose values
    are falsy (null, undefined, false, 0, the empty string) changes nothing at
    all. *)
Theorem mergeIntoCurrent_all_falsy (this : t) (data : BaseObject)
  (options : option BaseObject) :
  truthy (get (resultOptions options) "ignoreNullOrUndefined") = true ->
  forallb (fun p => falsy (snd p)) data = true ->
  mergeIntoCurrent mergeDependencies webpackMerge this data options = this.
Proof.
  intros G F. apply manager_ext; try reflexivity.
  unfold mergeIntoCurrent. simpl.
  assert (H : forall key, falsy (get data key) = true).
  { intros key. unfold get. rewrite forallb_forall in F.
    induction data as [|[k v] data IH]; simpl; [reflexivity|].
    destruct (key =? k).
    - apply (F (k, v)). now left.
    - apply IH. intros p I. apply F. now right. }
  generalize (packageConfig this) as config.
  induction (keys data) as [|k ks IH]; simpl; intros config; [reflexivity|].
  replace (mergeKey mergeDependencies webpackMerge (resultOptions options) data config k)
    with config; [apply IH|].
  unfold mergeKey. now rewrite G, H.
Qed.

(** X5. A value stored under a key of the configuration itself that is falsy
    (false, 0, the empty string, null) counts as not being there: a truthy
    incoming value replaces it, under every options record and whatever the
    helpers are. *)
Theorem mergeIntoCurrent_over_falsy (this : t) (data : BaseObject)
  (options : option BaseObject) (key : string) :
  distinct (keys data) = true ->
  hasOwnProperty data key = true ->
  hasOwnProperty (packageConfig this) key = true ->
  truthy (get data key) = true ->
  truthy (get (packageConfig this) key) = false ->
  get (packageConfig (mergeIntoCurrent mergeDependencies webpackMerge this data options))
      key = get data key.
Proof.
  intros D I _ V O. rewrite (mergeIntoCurrent_get this data options key D I).
  unfold mergeRule, falsy. fold (get (packageConfig this) key).
  rewrite V, O, andb_false_r, orb_true_r. reflexivity.
Qed.

(** X6. At the keys dependencies and devDependencies, with [merge] on and
    both values present: an incoming object is handed to [mergeDependencies]
    together with whatever is stored, which the cast does not check to be an
    object; an incoming scalar is dropped. *)
Theorem mergeIntoCurrent_dependencies_key (this : t) (data : BaseObject)
  (options : option BaseObject) (key : string) :
  distinct (keys data) = true ->
  hasOwnProperty data key = true ->
  truthy (get (resultOptions options) "merge") = true ->
  isDependenciesKey key = true ->
  truthy (get (packageConfig this) key) = true ->
  truthy (get data key) = true ->
  get (packageConfig (mergeIntoCurrent mergeDependencies webpackMerge this data options))
      key =
  if isTObject (get data key)
  then mergeDependencies (get (packageConfig this) key) (get data key)
  else get (packageConfig this) key.
Proof.
  intros D I M K O V. rewrite (mergeIntoCurrent_get this data options key D I).
  unfold mergeRule, falsy. fold (get (packageConfig this) key).
  rewrite M, K, O, V, andb_false_r. simpl. rewrite andb_true_r.
  now destruct (isTObject (get data key)).
Qed.

(** X7. With [ignoreNullOrUndefined] off and [merge] on, an incoming null
    passes the [typeof val === 'object'] tests: over a stored value it is
    handed to [mergeDependencies] at a dependency key and, over a stored
    object, to [webpackMerge] elsewhere. *)
Theorem mergeIntoCurrent_null_reaches_helpers (this : t) (data : BaseObject)
  (options : option BaseObject) (key : string) :
  distinct (keys data) = true ->
  hasOwnProperty data key = true ->
  truthy (get (resultOptions options) "ignoreNullOrUndefined") = false ->
  truthy (get (resultOptions options) "merge") = true ->
  get data key = VNull ->
  truthy (get (packageConfig this) key) = true ->
  get (packageConfig (mergeIntoCurrent mergeDependencies webpackMerge this data options))
      key =
  if isDependenciesKey key
  then mergeDependencies (get (packageConfig this) key) VNull
  else if isTObject (get (packageConfig this) key)
       then webpackMerge (get (packageConfig this) key) VNull
       else get (packageConfig this) key.
Proof.
  intros D I G M V O. rewrite (mergeIntoCurrent_get this data options key D I).
  unfold mergeRule, falsy. fold (get (packageConfig this) key).
  rewrite G, M, V, O. simpl.
  destruct (isDependenciesKey key); [reflexivity|].
  now destruct (isTObject (get (packageConfig this) key)).
Qed.


Lemma mergeKey_data (opts data data' config : BaseObject) (key : string) :
  get data key = get data' key ->
  mergeKey mergeDependencies webpackMerge opts data config key =
  mergeKey mergeDependencies webpackMerge opts data' config key.
Proof. unfold mergeKey. now intros ->. Qed.

(** X9. One call with a fragment equals two calls with its two halves, in
    that order and under the same options. *)
Theorem mergeIntoCurrent_split (this : t) (data1 data2 : BaseObject)
  (options : option BaseObject) :
  distinct (keys (data1 ++ data2)) = true ->
  mergeIntoCurrent mergeDependencies webpackMerge this (data1 ++ data2) options =
  mergeIntoCurrent mergeDependencies webpackMerge
    (mergeIntoCurrent mergeDependencies webpackMerge this data1 options) data2 options.
Proof.
  intros D. apply distinct_NoDup in D. apply manager_ext; try reflexivity.
  unfold mergeIntoCurrent. simpl. unfold keys in *. rewrite map_app in *.
  rewrite fold_left_app.
  rewrite (fold_left_agree
             (mergeKey mergeDependencies webpackMerge (resultOptions options)
                       (data1 ++ data2))
             (mergeKey mergeDependencies webpackMerge (resultOptions options) data1)
             (map fst data1)).
  - apply fold_left_agree. intros k I config. apply mergeKey_data.
    unfold get. rewrite lookup_app.
    destruct (lookup k data1) eqn:L; [|reflexivity].
    assert (J : In k (keys data1)).
    { apply hasOwnProperty_In. unfold hasOwnProperty. now rewrite L. }
    exfalso. revert D J I. clear. unfold keys.
    induction (map fst data1) as [|x l IH]; simpl; intros D [].
    + subst x. inversion D as [|? ? N _]; subst. intros I. apply N.
      apply in_or_app. now right.
    + inversion D; subst. now apply IH.
  - intros k I config. apply mergeKey_data. unfold get. rewrite lookup_app.
    destruct (lookup k data1) eqn:L; [reflexivity|].
    apply lookup_None_keys in L. contradiction.
Qed.

(** Keys stay unique: a stored configuration without a repeated key has none
    after a merge. *)
Lemma mergeIntoCurrent_keeps_keys_distinct (this : t) (data : BaseObject)
  (options : option BaseObject) :
  distinct (keys (packageConfig this)) = true ->
  distinct
    (keys (packageConfig
             (mergeIntoCurrent mergeDependencies webpackMerge this data options))) = true.
Proof.
  rewrite !distinct_NoDup, mergeIntoCurrent_updates. apply NoDup_keys_updates.
Qed.

End Merge.

End MergeExtras.

Module PruneExtras.
Import JS JSFacts PackageManager PruneFacts.
Local Open Scope list_scope.

Lemma keys_filter_incl (f : string * value -> bool) (o : BaseObject) (k : string) :
  In k (keys (filter f o)) -> In k (keys o).
Proof.
  unfold keys. rewrite !in_map_iff. intros [p [E I]]. apply filter_In in I.
  exists p. tauto.
Qed.

Lemma NoDup_keys_filter (f : string * value -> bool) (o : BaseObject) :
  NoDup (keys o) -> NoDup (keys (filter f o)).
Proof.
  induction o as [|p o IH]; simpl; intros D; [constructor|].
  inversion D as [|? ? N D']; subst.
  destruct (f p); simpl; [|now apply IH].
  constructor; [|now apply IH]. intros I. apply N. now apply keys_filter_incl in I.
Qed.

Lemma filter_twice {A : Type} (f : A -> bool) (l : list A) :
  filter f (filter f l) = filter f l.
Proof.
  induction l as [|x l IH]; simpl; [reflexivity|].
  destruct (f x) eqn:E; simpl; [rewrite E; now f_equal|assumption].
Qed.

Section Sorted.

Variable sortPackageJson : BaseObject -> BaseObject.

(** X11. A second [getPackageConfig] in a row finds nothing left to prune: it
    leaves the manager as the first call left it and returns the same
    object. *)
Theorem getPackageConfig_twice (this : t) :
  distinct (keys (packageConfig this)) = true ->
  getPackageConfig sortPackageJson (fst (getPackageConfig sortPackageJson this)) =
  getPackageConfig sortPackageJson this.
Proof.
  intros D. unfold getPackageConfig. simpl. rewrite (prune_filter _ D).
  rewrite prune_filter.
  - rewrite filter_twice. reflexivity.
  - apply distinct_NoDup. apply NoDup_keys_filter. now apply distinct_NoDup.
Qed.

(** X12. [getPackageConfig] drops nothing but empty objects: an entry whose
    value is null, undefined, a scalar or an object with something in it is
    still stored afterwards, and is in the returned object whenever the
    sorter returns the entries it is given. *)
Theorem getPackageConfig_keeps_entry (this : t) (key : string) (val : value) :
  (forall o p, In p o -> In p (sortPackageJson o)) ->
  distinct (keys (packageConfig this)) = true ->
  In (key, val) (packageConfig this) ->
  isEmptyObject val = false ->
  In (key, val) (snd (getPackageConfig sortPackageJson this)) /\
  lookup key (packageConfig (fst (getPackageConfig sortPackageJson this))) = Some val.
Proof.
  intros S D I E. unfold getPackageConfig. simpl. rewrite (prune_filter _ D).
  assert (F : In (key, val)
                 (filter (fun p => negb (isEmptyObject (snd p))) (packageConfig this))).
  { apply filter_In. split; [assumption|]. simpl. now rewrite E. }
  split; [now apply S|].
  apply SpecModelFacts.lookup_In; [|assumption].
  apply NoDup_keys_filter. now apply distinct_NoDup.
Qed.

(** The pruned configuration has no repeated key either. *)
Lemma getPackageConfig_keeps_keys_distinct (this : t) :
  distinct (keys (packageConfig this)) = true ->
  distinct (keys (packageConfig (fst (getPackageConfig sortPackageJson this)))) = true.
Proof.
  intros D. unfold getPackageConfig. simpl. rewrite (prune_filter _ D).
  apply distinct_NoDup. apply NoDup_keys_filter. now apply distinct_NoDup.
Qed.

End Sorted.

Lemma sortPackageJson_keeps (o : BaseObject) (p : string * value) :
  In p o -> In p (SpecModel.sortPackageJson o).
Proof.
  unfold SpecModel.sortPackageJson. induction o as [|q o IH]; simpl; [tauto|].
  assert (K : forall r l, In p (SpecModel.insertByKey r l) <-> p = r \/ In p l).
  { intros r l. induction l as [|s l IHl]; simpl; [intuition congruence|].
    destruct (String.leb (fst r) (fst s)); simpl; [intuition congruence|].
    rewrite IHl. intuition congruence. }
  intros [->|I]; apply K; [now left|right; now apply IH].
Qed.

Lemma getPackageConfig_twice_witness :
  let T := Concrete.manager
             [("name", VStr "app"); ("scripts", VObj []); ("keywords", VArr [])] in
  distinct (keys (packageConfig T)) = true /\
  Concrete.getPackageConfig (fst (Concrete.getPackageConfig T)) = Concrete.getPackageConfig T.
Proof.
  split; [reflexivity|].
  apply (getPackageConfig_twice SpecModel.sortPackageJson). reflexivity.
Defined.

Lemma getPackageConfig_keeps_entry_witness :
  let T := Concrete.manager
             [("name", VStr "app"); ("scripts", VObj []); ("license", VNull)] in
  distinct (keys (packageConfig T)) = true /\
  In ("license", VNull) (packageConfig T) /\
  isEmptyObject VNull = false /\
  In ("license", VNull) (snd (Concrete.getPackageConfig T)) /\
  lookup "license" (packageConfig (fst (Concrete.getPackageConfig T))) = Some VNull.
Proof.
  split; [reflexivity|]. split; [simpl; tauto|]. split; [reflexivity|].
  apply (getPackageConfig_keeps_entry SpecModel.sortPackageJson
           (Concrete.manager
              [("name", VStr "app"); ("scripts", VObj []); ("license", VNull)])
           "license" VNull).
  - exact sortPackageJson_keeps.
  - reflexivity.
  - simpl. tauto.
  - reflexivity.
Defined.

End PruneExtras.

Module InstallExtras.
Import JS PackageManager PackageManagerIO.
Local Open Scope list_scope.

Section World.

Variable runCommand : string -> list string -> string -> option exn.
Variable resolveModule : string -> result value.
Variable path_resolve3 : string -> string -> string -> string.

(** X13. With an [onError] handler that returns, [addAndInstallModule] never
    throws.  When the install command and the loading of the module both
    succeed it returns the loaded module; when the command fails it calls the
    handler with that error, does not look for the module, and returns an
    empty object; when the loading fails it calls the handler with that error
    and returns an empty object. *)
Theorem addAndInstallModule_handled (this : t) (o : ModuleInstallOptions)
  (handler : exn -> option exn) :
  onError o = Some handler ->
  (forall e, handler e = None) ->
  let command := fst (getInstallCommand this o) in
  let args := snd (getInstallCommand this o) in
  let path := path_resolve3 (basePath this) "node_modules" (name o) in
  let run := addAndInstallModule runCommand resolveModule path_resolve3 this (Some o) in
  (exists m, snd run = Returns m)
  /\ (forall e, runCommand command args (basePath this) = Some e ->
        run = ([RunCommand command args (basePath this); OnError e], Returns (VObj [])))
  /\ (forall m, runCommand command args (basePath this) = None ->
        resolveModule path = Returns m ->
        run = ([RunCommand command args (basePath this); ResolveModule path], Returns m))
  /\ (forall e, runCommand command args (basePath this) = None ->
        resolveModule path = Throws e ->
        run = ([RunCommand command args (basePath this); ResolveModule path; OnError e],
               Returns (VObj []))).
Proof.
  intros H R. cbv zeta. unfold addAndInstallModule.
  destruct (getInstallCommand this o) as [command args]. simpl fst. simpl snd.
  destruct (runCommand command args (basePath this)) as [e|] eqn:C.
  - unfold caught. rewrite H, R. simpl. split; [now eexists|].
    split; [now intros e' [= <-]|]. split; intros; discriminate.
  - split; [|split; [intros; discriminate|]].
    + destruct (resolveModule (path_resolve3 (basePath this) "node_modules" (name o)))
        as [m|e]; [now eexists|].
      unfold caught. rewrite H, R. now eexists.
    + split.
      * intros m _ M. now rewrite M.
      * intros e _ M. rewrite M. unfold caught. now rewrite H, R.
Qed.

(** X14. What [addAndInstallModule] does to the outside.  Without options it
    does nothing and returns an empty object.  With options its first call
    runs the one command of [getInstallCommand] in the base path; when that
    command succeeds its next call looks for the module under node_modules,
    by its name even when it was installed from a local path; when the
    command fails it never looks for the module.  Besides these it only
    calls the [onError] handler, and only if one was supplied; it runs no
    second command and writes no file. *)
Theorem addAndInstallModule_calls (this : t) (installOptions : option ModuleInstallOptions) :
  let run := addAndInstallModule runCommand resolveModule path_resolve3 this
               installOptions in
  (installOptions = None -> run = ([], Returns (VObj [])))
  /\ (forall o, installOptions = Some o ->
        let command := fst (getInstallCommand this o) in
        let args := snd (getInstallCommand this o) in
        let path := path_resolve3 (basePath this) "node_modules" (name o) in
        exists rest,
          fst run = RunCommand command args (basePath this) :: rest /\
          (runCommand command args (basePath this) = None ->
           exists rest', rest = ResolveModule path :: rest' /\
                         forall p, ~ In (ResolveModule p) rest') /\
          (runCommand command args (basePath this) <> None ->
           forall p, ~ In (ResolveModule p) rest) /\
          (forall c, In c rest ->
             match c with
             | RunCommand _ _ _ => False
             | ResolveModule p => p = path
             | OnError _ => onError o <> None
             | WriteFile _ _ => False
             end)).
Proof.
  cbv zeta. split; [now intros ->|]. intros o ->. unfold addAndInstallModule.
  destruct (getInstallCommand this o) as [command args]. simpl fst. simpl snd.
  assert (K : forall log e,
            fst (caught o log e) = log \/
            (fst (caught o log e) = log ++ [OnError e] /\ onError o <> None)).
  { intros log e. unfold caught. destruct (onError o) as [handler|]; [|now left].
    right. destruct (handler e); simpl; split; (reflexivity || discriminate). }
  destruct (runCommand command args (basePath this)) as [e|] eqn:C.
  - destruct (K [RunCommand command args (basePath this)] e) as [E|[E N]]; rewrite E.
    + exists []. split; [reflexivity|]. split; [discriminate|].
      split; [intros _ p []|intros c []].
    + exists [OnError e]. split; [reflexivity|]. split; [discriminate|].
      split; [intros _ p [J|[]]; discriminate|].
      intros c [<-|[]]. exact N.
  - destruct (resolveModule (path_resolve3 (basePath this) "node_modules" (name o)))
      as [m|e].
    + simpl. eexists. split; [reflexivity|]. split.
      * intros _. eexists. split; [reflexivity|]. intros p [].
      * split; [intros N; now elim N|]. intros c [<-|[]]. reflexivity.
    + destruct (K [RunCommand command args (basePath this);
                   ResolveModule
                     (path_resolve3 (basePath this) "node_modules" (name o))] e)
        as [E|[E N]]; rewrite E.
      * eexists. split; [reflexivity|]. split.
        -- intros _. eexists. split; [reflexivity|]. intros p [].
        -- split; [intros N; now elim N|]. intros c [<-|[]]. reflexivity.
      * eexists. split; [reflexivity|]. split.
        -- intros _. eexists. split; [reflexivity|]. intros p [J|[]]. discriminate.
        -- split; [intros N'; now elim N'|].
           intros c [<-|[<-|[]]]; [reflexivity|exact N].
Qed.

(** X15. Without an [onError] handler a failure is thrown on, wrapped in a
    new [Error] whose message is the text of the original error (so an error
    "m" comes out as "Error: m"). *)
Theorem addAndInstallModule_unhandled (this : t) (o : ModuleInstallOptions) (e : exn) :
  onError o = None ->
  runCommand (fst (getInstallCommand this o)) (snd (getInstallCommand this o))
             (basePath this) = Some e
  \/ (runCommand (fst (getInstallCommand this o)) (snd (getInstallCommand this o))
                 (basePath this) = None /\
      resolveModule (path_resolve3 (basePath this) "node_modules" (name o)) = Throws e) ->
  snd (addAndInstallModule runCommand resolveModule path_resolve3 this (Some o)) =
  Throws (Error (errorText e)).
Proof.
  intros H F. unfold addAndInstallModule.
  destruct (getInstallCommand this o) as [command args]. simpl in F.
  destruct F as [C|[C M]]; rewrite C; [|rewrite M]; unfold caught; now rewrite H.
Qed.

End World.

Lemma addAndInstallModule_handled_witness :
  let o := {| name := "left-pad"; version := Some "1.3.0"; localPath := None;
              onError := Some ConcreteIO.swallow |} in
  onError o = Some ConcreteIO.swallow /\
  (forall e, ConcreteIO.swallow e = None) /\
  ConcreteIO.commandFails (fst (getInstallCommand (Concrete.manager []) o))
    (snd (getInstallCommand (Concrete.manager []) o)) "/app" =
  Some (Error "exit code 1") /\
  addAndInstallModule ConcreteIO.commandFails ConcreteIO.resolveLeftPad
    ConcreteIO.path_resolve3 (Concrete.manager []) (Some o) =
  ([RunCommand "npm install" ["left-pad@1.3.0"] "/app"; OnError (Error "exit code 1")],
   Returns (VObj [])) /\
  addAndInstallModule ConcreteIO.commandSucceeds ConcreteIO.resolveLeftPad
    ConcreteIO.path_resolve3 (Concrete.manager []) (Some o) =
  ([RunCommand "npm install" ["left-pad@1.3.0"] "/app";
    ResolveModule "/app/node_modules/left-pad"],
   Returns (VObj [("name", VStr "left-pad")])).
Proof.
  do 3 (split; [reflexivity|]). split.
  - apply (proj1 (proj2 (addAndInstallModule_handled ConcreteIO.commandFails
                           ConcreteIO.resolveLeftPad ConcreteIO.path_resolve3
                           (Concrete.manager [])
                           {| name := "left-pad"; version := Some "1.3.0";
                              localPath := None; onError := Some ConcreteIO.swallow |}
                           ConcreteIO.swallow eq_refl (fun e => eq_refl)))).
    reflexivity.
  - apply (proj1 (proj2 (proj2 (addAndInstallModule_handled ConcreteIO.commandSucceeds
                                  ConcreteIO.resolveLeftPad ConcreteIO.path_resolve3
                                  (Concrete.manager [])
                                  {| name := "left-pad"; version := Some "1.3.0";
                                     localPath := None;
                                     onError := Some ConcreteIO.swallow |}
                                  ConcreteIO.swallow eq_refl (fun e => eq_refl))))).
    + reflexivity.
    + reflexivity.
Defined.

Lemma addAndInstallModule_calls_witness :
  let o := {| name := "left-pad"; version := None; localPath := Some "../left-pad";
              onError := None |} in
  let run := addAndInstallModule ConcreteIO.commandSucceeds ConcreteIO.resolveLeftPad
               ConcreteIO.path_resolve3 (Concrete.manager []) (Some o) in
  fst run = [RunCommand "npm install" ["file:../left-pad"] "/app";
             ResolveModule "/app/node_modules/left-pad"] /\
  exists rest,
    fst run = RunCommand "npm install" ["file:../left-pad"] "/app" :: rest.
Proof.
  split; [reflexivity|].
  destruct (proj2 (addAndInstallModule_calls ConcreteIO.commandSucceeds
                     ConcreteIO.resolveLeftPad ConcreteIO.path_resolve3
                     (Concrete.manager [])
                     (Some {| name := "left-pad"; version := None;
                              localPath := Some "../left-pad"; onError := None |}))
                  _ eq_refl) as [rest [E _]].
  exists rest. exact E.
Defined.

Lemma addAndInstallModule_unhandled_witness :
  let o := {| name := "left-pad"; version := None; localPath := None;
              onError := None |} in
  onError o = None /\
  ConcreteIO.commandFails (fst (getInstallCommand (Concrete.manager []) o))
    (snd (getInstallCommand (Concrete.manager []) o)) "/app" =
  Some (Error "exit code 1") /\
  snd (addAndInstallModule ConcreteIO.commandFails ConcreteIO.resolveLeftPad
         ConcreteIO.path_resolve3 (Concrete.manager []) (Some o)) =
  Throws (Error "Error: exit code 1").
Proof.
  split; [reflexivity|]. split; [reflexivity|].
  apply (addAndInstallModule_unhandled ConcreteIO.commandFails ConcreteIO.resolveLeftPad
           ConcreteIO.path_resolve3 (Concrete.manager [])
           {| name := "left-pad"; version := None; localPath := None; onError := None |}
           (Error "exit code 1") eq_refl).
  now left.
Defined.

End InstallExtras.

Module WriteExtras.
Import JS JSFacts PackageManager PackageManagerIO PruneFacts PruneExtras.
Local Open Scope list_scope.

Section World.

Variable path_resolve : string -> string -> string.
Variable writeFilePromise : string -> string -> option exn.
Variable JSON_stringify : BaseObject -> string.
Variable sortPackageJson : BaseObject -> BaseObject.

(** X16. Writing prunes the stored configuration, whether or not the write
    succeeds, and writing a second time in a row asks for the same file with
    the same content and leaves the manager as the first write left it. *)
Theorem writePackageConfig_twice (this : t) :
  distinct (keys (packageConfig this)) = true ->
  let first := writePackageConfig path_resolve writeFilePromise JSON_stringify
                 sortPackageJson this in
  let second := writePackageConfig path_resolve writeFilePromise JSON_stringify
                  sortPackageJson (fst (fst first)) in
  (forall p, In p (packageConfig (fst (fst first))) -> isEmptyObject (snd p) = false)
  /\ fst (fst second) = fst (fst first)
  /\ snd (fst second) = snd (fst first).
Proof.
  intros D. cbv zeta. unfold writePackageConfig, getPackageConfig. simpl.
  rewrite (prune_filter _ D).
  assert (D' : distinct
                 (keys (filter (fun p => negb (isEmptyObject (snd p)))
                               (packageConfig this))) = true).
  { apply distinct_NoDup. apply NoDup_keys_filter. now apply distinct_NoDup. }
  rewrite (prune_filter _ D'), filter_twice.
  split; [|split; reflexivity].
  intros p I. apply filter_In in I. now apply negb_true_iff.
Qed.

(** X17. What [writePackageConfig] writes is what [createWithResolve] reads:
    when the module loader reads back, through a parser that undoes
    [JSON.stringify] on this configuration, the file that was last written,
    building a manager on the same base path after a write gives the
    configuration [getPackageConfig] returned. *)
Theorem writePackageConfig_then_createWithResolve (this : t)
  (PACKAGE_JSON_BASE : BaseObject) (existsSync : string -> bool)
  (parse : string -> option BaseObject) (loadModule : string -> option BaseObject) :
  let written := snd (fst (writePackageConfig path_resolve writeFilePromise
                             JSON_stringify sortPackageJson this)) in
  let config := snd (getPackageConfig sortPackageJson this) in
  (forall path content, In (WriteFile path content) written ->
     loadModule path = parse content) ->
  parse (JSON_stringify config) = Some config ->
  exists manager,
    createWithResolve PACKAGE_JSON_BASE loadModule path_resolve existsSync
      (basePath this) = Returns manager /\
    packageConfig manager = config /\ basePath manager = basePath this.
Proof.
  cbv zeta. unfold writePackageConfig.
  destruct (getPackageConfig sortPackageJson this) as [this1 config]. simpl.
  intros L P. unfold createWithResolve, resolvePackageConfig. simpl.
  rewrite (L _ _ (or_introl eq_refl)), P. eexists. repeat split.
Qed.

End World.

Lemma writePackageConfig_twice_witness :
  let T := Concrete.manager [("name", VStr "app"); ("scripts", VObj [])] in
  distinct (keys (packageConfig T)) = true /\
  fst (fst (ConcreteIO.writePackageConfig (fst (fst (ConcreteIO.writePackageConfig T))))) =
  fst (fst (ConcreteIO.writePackageConfig T)) /\
  snd (fst (ConcreteIO.writePackageConfig (fst (fst (ConcreteIO.writePackageConfig T))))) =
  snd (fst (ConcreteIO.writePackageConfig T)).
Proof.
  split; [reflexivity|].
  exact (proj2 (writePackageConfig_twice Concrete.path_resolve ConcreteIO.writeSucceeds
                  ConcreteIO.JSON_stringify SpecModel.sortPackageJson
                  (Concrete.manager [("name", VStr "app"); ("scripts", VObj [])])
                  eq_refl)).
Defined.

Lemma writePackageConfig_then_createWithResolve_witness :
  let T := Concrete.manager [("name", VStr "app"); ("scripts", VObj [])] in
  let parse := ConcreteIO.parseOnly [("name", VStr "app")] in
  let loadModule := fun path =>
    match ConcreteIO.diskWith "/app/package.json"
            (ConcreteIO.JSON_stringify [("name", VStr "app")]) path with
    | Some content => parse content
    | None => None
    end in
  parse (ConcreteIO.JSON_stringify (snd (Concrete.getPackageConfig T))) =
  Some (snd (Concrete.getPackageConfig T)) /\
  exists manager,
    createWithResolve Concrete.skeleton loadModule Concrete.path_resolve
      Concrete.nothingExists "/app" = Returns manager /\
    packageConfig manager = [("name", VStr "app")] /\ basePath manager = "/app".
Proof.
  split; [reflexivity|].
  apply (writePackageConfig_then_createWithResolve Concrete.path_resolve
           ConcreteIO.writeSucceeds ConcreteIO.JSON_stringify SpecModel.sortPackageJson
           (Concrete.manager [("name", VStr "app"); ("scripts", VObj [])])
           Concrete.skeleton Concrete.nothingExists
           (ConcreteIO.parseOnly [("name", VStr "app")])).
  - intros path content [I|[]]. injection I as <- <-. reflexivity.
  - reflexivity.
Defined.

End WriteExtras.

(** * Further properties of the React service *)

Module ReactServiceExtras.
Import JS ReactService ReactServiceBuild.
Local Open Scope list_scope.

Section Service.

Variable webpackMerge : value -> list value -> value.
Variable DEFAULT_WEBPACK_DEV_SERVER_HOST : value.
Variable DEFAULT_WEBPACK_DEV_SERVER_PORT : value.
Variable String_ : value -> string.

Lemma withWebpackConfig_same (this : t) :
  withWebpackConfig this (webpackConfig this) = this.
Proof. now destruct this. Qed.

Lemma mergeWebpackConfig_calls (calls : list (list value)) :
  forall this,
    fold_left (mergeWebpackConfig webpackMerge) calls this =
    withWebpackConfig this (merged webpackMerge calls (webpackConfig this)).
Proof.
  unfold merged. induction calls as [|c calls IH]; simpl; intros this.
  - now rewrite withWebpackConfig_same.
  - now rewrite IH.
Qed.

(** The plugin loop in closed form: the calls of the plugins that were
    reached, merged in order. *)
Lemma runRuntimePlugins_closed (pluginModules : list PluginModule) :
  forall this,
    runRuntimePlugins webpackMerge pluginModules this =
    (withWebpackConfig this
       (merged webpackMerge (flat_map runtimeCalls (reached pluginModules))
               (webpackConfig this)),
     if existsb runtimeThrows pluginModules then Thrown else Normal).
Proof.
  induction pluginModules as [|p ps IH]; simpl; intros this.
  - now rewrite withWebpackConfig_same.
  - rewrite mergeWebpackConfig_calls.
    destruct (runtimeThrows p); simpl.
    + now rewrite app_nil_r.
    + rewrite IH. unfold merged. simpl. now rewrite fold_left_app.
Qed.

Lemma reached_all (pluginModules : list PluginModule) :
  existsb runtimeThrows pluginModules = false -> reached pluginModules = pluginModules.
Proof.
  induction pluginModules as [|p ps IH]; simpl; [reflexivity|].
  destruct (runtimeThrows p); simpl; [discriminate|]. intros H. now rewrite IH.
Qed.

(** [start] when every plugin returns. *)
Lemma start_closed (this : t) :
  existsb runtimeThrows (getPluginModules (appManager this)) = false ->
  start webpackMerge DEFAULT_WEBPACK_DEV_SERVER_HOST DEFAULT_WEBPACK_DEV_SERVER_PORT
        String_ this =
  let appConfig := getAppConfig (appManager this) in
  let this2 := withWebpackConfig this (compiled webpackMerge this) in
  let options := copyOf (devServerConfig this) in
  let calls := [SetEnv "DEV_SERVER_PORT" (String_ (getPropOpt options "port"));
                Webpack (compiled webpackMerge this);
                NewWebpackDevServer (compiled webpackMerge this) options] in
  match getProp appConfig "additional" with
  | None => (this2, calls, Thrown)
  | Some additionalData =>
      (this2,
       calls ++
       [Listen (orElse (getPropOpt additionalData "webpackDevServerPort")
                       DEFAULT_WEBPACK_DEV_SERVER_PORT)
               (orElse (getPropOpt additionalData "webpackDevServerHost")
                       DEFAULT_WEBPACK_DEV_SERVER_HOST)],
       Normal)
  end.
Proof.
  intros N. unfold start, compiled. rewrite runRuntimePlugins_closed, N.
  rewrite (reached_all _ N). cbv zeta.
  destruct (truthy (getPropOpt (getPropOpt (getAppConfig (appManager this)) "webpack")
                               "webpackConfig")); simpl;
    now destruct (getProp (getAppConfig (appManager this)) "additional").
Qed.

Lemma build_closed (this : t) :
  existsb runtimeThrows (getPluginModules (appManager this)) = false ->
  build webpackMerge this =
  (withWebpackConfig this (compiled webpackMerge this),
   [Compile (compiled webpackMerge this); Run], Normal).
Proof.
  intros N. unfold build, compiled. rewrite runRuntimePlugins_closed, N.
  rewrite (reached_all _ N). cbv zeta.
  now destruct (truthy (getPropOpt (getPropOpt (getAppConfig (appManager this)) "webpack")
                                   "webpackConfig")).
Qed.

Lemma start_thrown (this : t) :
  existsb runtimeThrows (getPluginModules (appManager this)) = true ->
  start webpackMerge DEFAULT_WEBPACK_DEV_SERVER_HOST DEFAULT_WEBPACK_DEV_SERVER_PORT
        String_ this =
  (withWebpackConfig this
     (merged webpackMerge
             (flat_map runtimeCalls (reached (getPluginModules (appManager this))))
             (webpackConfig this)),
   [], Thrown).
Proof. intros N. unfold start. now rewrite runRuntimePlugins_closed, N. Qed.

Lemma build_thrown (this : t) :
  existsb runtimeThrows (getPluginModules (appManager this)) = true ->
  build webpackMerge this =
  (withWebpackConfig this
     (merged webpackMerge
             (flat_map runtimeCalls (reached (getPluginModules (appManager this))))
             (webpackConfig this)),
   [], Thrown).
Proof. intros N. unfold build. now rewrite runRuntimePlugins_closed, N. Qed.

(** X18. When a plugin's runtime hook throws, [start] and [build] stop there:
    nothing is set, compiled, served or listened on, and the configurations
    of the plugins behind the one that threw are never merged in. *)
Theorem plugin_throw_stops_everything (this : t) :
  existsb runtimeThrows (getPluginModules (appManager this)) = true ->
  let started := start webpackMerge DEFAULT_WEBPACK_DEV_SERVER_HOST
                       DEFAULT_WEBPACK_DEV_SERVER_PORT String_ this in
  let built := build webpackMerge this in
  trace started = [] /\ snd started = Thrown /\
  snd (fst built) = [] /\ snd built = Thrown /\
  webpackConfig (fst (fst started)) =
  merged webpackMerge
         (flat_map runtimeCalls (reached (getPluginModules (appManager this))))
         (webpackConfig this) /\
  fst (fst built) = fst (fst started).
Proof.
  intros N. cbv zeta. rewrite (start_thrown this N), (build_thrown this N).
  repeat split.
Qed.

(** X19. When the application configuration is undefined or null and every
    plugin returns, [start] compiles and creates the dev server and then
    throws on reading [appConfig.additional]: it never listens.  [build],
    which does not read that field, completes. *)
Theorem start_without_appConfig (this : t) :
  existsb runtimeThrows (getPluginModules (appManager this)) = false ->
  isNullish (getAppConfig (appManager this)) = true ->
  let started := start webpackMerge DEFAULT_WEBPACK_DEV_SERVER_HOST
                       DEFAULT_WEBPACK_DEV_SERVER_PORT String_ this in
  snd started = Thrown /\
  listened (trace started) = None /\
  In (Webpack (compiled webpackMerge this)) (trace started) /\
  In (NewWebpackDevServer (compiled webpackMerge this) (copyOf (devServerConfig this)))
     (trace started) /\
  snd (build webpackMerge this) = Normal.
Proof.
  intros N U. cbv zeta. rewrite (start_closed this N), (build_closed this N).
  cbv zeta. destruct (getAppConfig (appManager this)); try discriminate;
    simpl; tauto.
Qed.


(** X21. When every plugin returns, [start] sets the environment variable
    DEV_SERVER_PORT, and sets it to the text of the port of the dev-server
    configuration, whatever the application configuration says; it sets no
    other variable and no other value.  The port it goes on to listen on is
    the one of the application configuration (or the default), so whenever
    the text of that port is another one, the variable does not name the port
    listened on. *)
Theorem env_port_from_devServerConfig (this : t) :
  let appConfig := getAppConfig (appManager this) in
  let userPort := getPropOpt (getPropOpt appConfig "additional") "webpackDevServerPort" in
  let text := String_ (getPropOpt (copyOf (devServerConfig this)) "port") in
  let log := trace (start webpackMerge DEFAULT_WEBPACK_DEV_SERVER_HOST
                          DEFAULT_WEBPACK_DEV_SERVER_PORT String_ this) in
  (forall name val, In (SetEnv name val) log -> name = "DEV_SERVER_PORT" /\ val = text)
  /\ (existsb runtimeThrows (getPluginModules (appManager this)) = false ->
      In (SetEnv "DEV_SERVER_PORT" text) log)
  /\ (existsb runtimeThrows (getPluginModules (appManager this)) = false ->
      isNullish appConfig = false ->
      exists host,
        listened log = Some (orElse userPort DEFAULT_WEBPACK_DEV_SERVER_PORT, host) /\
        (String_ (orElse userPort DEFAULT_WEBPACK_DEV_SERVER_PORT) <> text ->
         ~ In (SetEnv "DEV_SERVER_PORT"
                      (String_ (orElse userPort DEFAULT_WEBPACK_DEV_SERVER_PORT))) log)).
Proof.
  cbv zeta.
  assert (B : forall name val,
            In (SetEnv name val)
               (trace (start webpackMerge DEFAULT_WEBPACK_DEV_SERVER_HOST
                             DEFAULT_WEBPACK_DEV_SERVER_PORT String_ this)) ->
            name = "DEV_SERVER_PORT" /\
            val = String_ (getPropOpt (copyOf (devServerConfig this)) "port")).
  { intros name val.
    destruct (existsb runtimeThrows (getPluginModules (appManager this))) eqn:N.
    - rewrite (start_thrown this N). intros [].
    - rewrite (start_closed this N). cbv zeta.
      destruct (getProp (getAppConfig (appManager this)) "additional"); simpl;
        intros I;
        repeat match goal with
               | H : _ \/ _ |- _ => destruct H
               | H : False |- _ => destruct H
               end; try discriminate; injection H as <- <-; now split. }
  split; [exact B|]. split.
  - intros N. rewrite (start_closed this N). cbv zeta.
    destruct (getProp (getAppConfig (appManager this)) "additional"); simpl; tauto.
  - intros N U.
    exists (orElse (getPropOpt (getPropOpt (getAppConfig (appManager this)) "additional")
                               "webpackDevServerHost")
                   DEFAULT_WEBPACK_DEV_SERVER_HOST).
    split.
    + rewrite (start_closed this N). cbv zeta.
      assert (E : getPropOpt (getAppConfig (appManager this)) "additional" =
                  match getProp (getAppConfig (appManager this)) "additional" with
                  | Some x => x
                  | None => VUndefined
                  end) by reflexivity.
      rewrite E. clear E.
      destruct (getProp (getAppConfig (appManager this)) "additional") eqn:A.
      * simpl. reflexivity.
      * destruct (getAppConfig (appManager this)); discriminate.
    + intros D I. apply B in I. destruct I as [_ I]. contradiction.
Qed.

(** X22. [start] and [build] change nothing of the service but its webpack
    configuration: the application manager and the dev-server configuration
    are as before, however the run ends. *)
Theorem service_frame (this : t) :
  let started := start webpackMerge DEFAULT_WEBPACK_DEV_SERVER_HOST
                       DEFAULT_WEBPACK_DEV_SERVER_PORT String_ this in
  let built := build webpackMerge this in
  appManager (fst (fst started)) = appManager this /\
  devServerConfig (fst (fst started)) = devServerConfig this /\
  appManager (fst (fst built)) = appManager this /\
  devServerConfig (fst (fst built)) = devServerConfig this.
Proof.
  cbv zeta.
  destruct (existsb runtimeThrows (getPluginModules (appManager this))) eqn:N.
  - rewrite (start_thrown this N), (build_thrown this N). repeat split.
  - rewrite (start_closed this N), (build_closed this N). cbv zeta.
    destruct (getProp (getAppConfig (appManager this)) "additional"); repeat split.
Qed.

End Service.

Lemma plugin_throw_stops_everything_witness :
  existsb runtimeThrows (getPluginModules (appManager ConcreteIO.brokenService)) = true /\
  trace (Concrete.start ConcreteIO.brokenService) = [] /\
  snd (Concrete.start ConcreteIO.brokenService) = Thrown /\
  snd (fst (ConcreteIO.build ConcreteIO.brokenService)) = [] /\
  snd (ConcreteIO.build ConcreteIO.brokenService) = Thrown /\
  webpackConfig (fst (fst (Concrete.start ConcreteIO.brokenService))) =
  merged Concrete.mergeAll
         (flat_map runtimeCalls
                   (reached (getPluginModules (appManager ConcreteIO.brokenService))))
         (webpackConfig ConcreteIO.brokenService) /\
  fst (fst (ConcreteIO.build ConcreteIO.brokenService)) =
  fst (fst (Concrete.start ConcreteIO.brokenService)).
Proof.
  split; [reflexivity|].
  exact (plugin_throw_stops_everything Concrete.mergeAll (VStr "0.0.0.0") (VNum 9000)
           Concrete.String_ ConcreteIO.brokenService eq_refl).
Defined.

Lemma start_without_appConfig_witness :
  let S := Concrete.service VUndefined in
  existsb runtimeThrows (getPluginModules (appManager S)) = false /\
  isNullish (getAppConfig (appManager S)) = true /\
  snd (Concrete.start S) = Thrown /\
  listened (trace (Concrete.start S)) = None /\
  snd (ConcreteIO.build S) = Normal.
Proof.
  split; [reflexivity|]. split; [reflexivity|].
  destruct (start_without_appConfig Concrete.mergeAll (VStr "0.0.0.0") (VNum 9000)
              Concrete.String_ (Concrete.service VUndefined) eq_refl eq_refl)
    as [A [B [_ [_ C]]]].
  split; [exact A|]. split; [exact B|exact C].
Defined.


Lemma env_port_from_devServerConfig_witness :
  let S := Concrete.service
             (VObj [("additional", VObj [("webpackDevServerPort", VNum 8080)])]) in
  existsb runtimeThrows (getPluginModules (appManager S)) = false /\
  isNullish (getAppConfig (appManager S)) = false /\
  In (SetEnv "DEV_SERVER_PORT" "9000") (trace (Concrete.start S)) /\
  listened (trace (Concrete.start S)) = Some (VNum 8080, VStr "0.0.0.0") /\
  ~ In (SetEnv "DEV_SERVER_PORT" "8080") (trace (Concrete.start S)).
Proof.
  do 2 (split; [reflexivity|]).
  pose proof (env_port_from_devServerConfig Concrete.mergeAll (VStr "0.0.0.0")
                (VNum 9000) Concrete.String_
                (Concrete.service
                   (VObj [("additional", VObj [("webpackDevServerPort", VNum 8080)])])))
    as [_ [P L]].
  split; [exact (P eq_refl)|]. split; [reflexivity|].
  destruct (L eq_refl eq_refl) as [host [_ D]]. apply D. discriminate.
Defined.

End ReactServiceExtras.

Module MergeExtrasExamples.
Import JS PackageManager MergeExtras.

Lemma mergeIntoCurrent_frame_witness :
  let T := Concrete.manager [("name", VStr "app"); ("license", VStr "MIT")] in
  let F := [("name", VStr "other"); ("private", VBool true)] in
  hasOwnProperty F "license" = false /\
  lookup "license" (packageConfig (Concrete.mergeIntoCurrent T F None)) =
  lookup "license" (packageConfig T).
Proof.
  split; [reflexivity|].
  apply (proj1 (mergeIntoCurrent_frame Concrete.mergeDependencies Concrete.webpackMerge
                  (Concrete.manager [("name", VStr "app"); ("license", VStr "MIT")])
                  [("name", VStr "other"); ("private", VBool true)] None "license"
                  eq_refl)).
Defined.


Lemma mergeIntoCurrent_all_falsy_witness :
  let T := Concrete.manager [("name", VStr "app")] in
  let F := [("private", VBool false); ("name", VStr ""); ("license", VNull)] in
  truthy (get (resultOptions None) "ignoreNullOrUndefined") = true /\
  forallb (fun p => falsy (snd p)) F = true /\
  Concrete.mergeIntoCurrent T F None = T.
Proof.
  do 2 (split; [reflexivity|]).
  apply (mergeIntoCurrent_all_falsy Concrete.mergeDependencies Concrete.webpackMerge);
    reflexivity.
Defined.

Lemma mergeIntoCurrent_over_falsy_witness :
  let T := Concrete.manager [("private", VBool false); ("retries", VNum 0)] in
  let F := [("private", VBool true)] in
  distinct (keys F) = true /\
  hasOwnProperty F "private" = true /\
  hasOwnProperty (packageConfig T) "private" = true /\
  truthy (get F "private") = true /\
  truthy (get (packageConfig T) "private") = false /\
  get (packageConfig (Concrete.mergeIntoCurrent T F None)) "private" = VBool true.
Proof.
  do 5 (split; [reflexivity|]).
  apply (mergeIntoCurrent_over_falsy Concrete.mergeDependencies Concrete.webpackMerge
           (Concrete.manager [("private", VBool false); ("retries", VNum 0)])
           [("private", VBool true)] None "private"); reflexivity.
Defined.

Lemma mergeIntoCurrent_dependencies_key_witness :
  let T := Concrete.manager [("devDependencies", VStr "none")] in
  let F := [("devDependencies", VObj [("jest", VStr "^26.6.3")])] in
  distinct (keys F) = true /\
  hasOwnProperty F "devDependencies" = true /\
  truthy (get (resultOptions None) "merge") = true /\
  isDependenciesKey "devDependencies" = true /\
  truthy (get (packageConfig T) "devDependencies") = true /\
  truthy (get F "devDependencies") = true /\
  get (packageConfig (Concrete.mergeIntoCurrent T F None)) "devDependencies" =
  Concrete.mergeDependencies (VStr "none") (VObj [("jest", VStr "^26.6.3")]).
Proof.
  do 6 (split; [reflexivity|]).
  apply (mergeIntoCurrent_dependencies_key Concrete.mergeDependencies
           Concrete.webpackMerge
           (Concrete.manager [("devDependencies", VStr "none")])
           [("devDependencies", VObj [("jest", VStr "^26.6.3")])] None
           "devDependencies"); reflexivity.
Defined.

Lemma mergeIntoCurrent_null_reaches_helpers_witness :
  let T := Concrete.manager [("eslintConfig", VObj [("root", VBool true)])] in
  let F := [("eslintConfig", VNull)] in
  let options := Some [("ignoreNullOrUndefined", VBool false)] in
  distinct (keys F) = true /\
  hasOwnProperty F "eslintConfig" = true /\
  truthy (get (resultOptions options) "ignoreNullOrUndefined") = false /\
  truthy (get (resultOptions options) "merge") = true /\
  get F "eslintConfig" = VNull /\
  truthy (get (packageConfig T) "eslintConfig") = true /\
  get (packageConfig (Concrete.mergeIntoCurrent T F options)) "eslintConfig" =
  Concrete.webpackMerge (VObj [("root", VBool true)]) VNull.
Proof.
  do 6 (split; [reflexivity|]).
  apply (mergeIntoCurrent_null_reaches_helpers Concrete.mergeDependencies
           Concrete.webpackMerge
           (Concrete.manager [("eslintConfig", VObj [("root", VBool true)])])
           [("eslintConfig", VNull)]
           (Some [("ignoreNullOrUndefined", VBool false)]) "eslintConfig"); reflexivity.
Defined.


Lemma mergeIntoCurrent_split_witness :
  let T := Concrete.manager [("name", VStr "app")] in
  let F1 := [("scripts", VObj [("lint", VStr "eslint .")])] in
  let F2 := [("name", VStr "renamed"); ("private", VBool true)] in
  distinct (keys (F1 ++ F2)%list) = true /\
  Concrete.mergeIntoCurrent T (F1 ++ F2)%list None =
  Concrete.mergeIntoCurrent (Concrete.mergeIntoCurrent T F1 None) F2 None.
Proof.
  split; [reflexivity|].
  apply (mergeIntoCurrent_split Concrete.mergeDependencies Concrete.webpackMerge).
  reflexivity.
Defined.

Lemma mergeIntoCurrent_appends_keys_witness :
  let T := Concrete.manager [("name", VStr "app"); ("version", VStr "1.0.0")] in
  let F := [("private", VBool true); ("version", VStr "2.0.0"); ("license", VStr "MIT")] in
  forallb (fun k => negb (KeyNames.integerLike k)) (keys F) = true /\
  keys (packageConfig (Concrete.mergeIntoCurrent T F None)) =
  (keys (packageConfig T) ++ ["private"; "license"])%list /\
  exists added,
    keys (packageConfig (Concrete.mergeIntoCurrent T F None)) =
    (keys (packageConfig T) ++ added)%list.
Proof.
  split; [reflexivity|]. split; [reflexivity|].
  destruct (mergeIntoCurrent_appends_keys Concrete.mergeDependencies Concrete.webpackMerge
              (Concrete.manager [("name", VStr "app"); ("version", VStr "1.0.0")])
              [("private", VBool true); ("version", VStr "2.0.0"); ("license", VStr "MIT")]
              None eq_refl) as [added [E _]].
  exists added. exact E.
Defined.

End MergeExtrasExamples.
